(** * squirrel: fragments, the fragment sequencer and the SELECT / INSERT
      assemblers (part.go, insert.go, select.go)

    A shallow embedding of the statement-assembly engine.  Go values of
    type [interface{}] become the inductive [value]; the [Sqlizer]
    interface becomes the inductive [Sqlizer] with one constructor per
    implementation; a Go panic is the [Panic] outcome of [result]; an
    [io.Writer] is a type class with the [bytes.Buffer] instance; builders
    are references into a store of persistent property maps. *)

From stdpp Require Import base gmap strings pretty list fin_maps.
From Stdlib Require Import ZArith Lia.

Local Set Warnings "-register-all".
Local Open Scope string_scope.
Local Open Scope list_scope.
Local Open Scope Z_scope.

(** ** Outcomes *)

(** A Go [error] value, identified by its message. *)
Definition error : Type := string.

(** The outcome of a Go call that either returns or panics. *)
Inductive result (A : Type) : Type :=
  | Ok (a : A)
  | Panic (e : error).
Arguments Ok {A} a.
Arguments Panic {A} e.

#[global] Instance result_ret : MRet result := fun _ a => Ok a.
#[global] Instance result_bind : MBind result := fun _ _ k r =>
  match r with
  | Ok a => k a
  | Panic e => Panic e
  end.

(** ** Values and fragments *)

(** Go values that flow through [interface{}] positions, and the
    implementations of the [Sqlizer] interface. [part] is [*part] of
    part.go, [expr] is the struct literal [expr{sql, args}] used by
    insert.go and select.go, and [foreign] stands for every other
    implementation of the interface (predicate maps, aliases, nested
    builders), given by the outcome of its [ToSql] method. *)
Inductive value : Type :=
  | VNil
  | VString (s : string)
  | VInt (n : Z)
  | VBool (b : bool)
  | VSlice (vs : list value)
  | VSqlizer (f : Sqlizer)
with Sqlizer : Type :=
  | part (pred : value) (args : list value)
  | expr (sql : string) (args : list value)
  | foreign (r : result (string * list value)).

(** [[]expr], the type of the prefix and suffix slots. *)
Definition exprs : Type := list (string * list value).

(** The [%T] verb of [fmt] on the values that are neither nil, nor a
    string, nor a [Sqlizer]. *)
Definition typeName (v : value) : string :=
  match v with
  | VNil => "<nil>"
  | VString _ => "string"
  | VInt _ => "int"
  | VBool _ => "bool"
  | VSlice _ => "[]interface {}"
  | VSqlizer (part _ _) => "*squirrel.part"
  | VSqlizer (expr _ _) => "squirrel.expr"
  | VSqlizer (foreign _) => "squirrel.Sqlizer"
  end.

(** [newPart(pred, args...)] *)
Definition newPart (pred : value) (args : list value) : Sqlizer :=
  part pred args.

(** [Sqlizer.ToSql], dispatching on the implementation. The [part] case
    is [part.ToSql] of part.go: a type switch on [p.pred].

    Modelled from the spec: [expr.ToSql] is not in the sources; a raw
    fragment is "literal SQL text plus a fixed argument sequence". *)
Fixpoint Sqlizer_ToSql (f : Sqlizer) : result (string * list value) :=
  match f with
  | part pred p_args =>
      match pred with
      | VNil => Ok ("", [])
      | VSqlizer pred => Sqlizer_ToSql pred
      | VString pred => Ok (pred, p_args)
      | _ => Panic ("expected string or Sqlizer, not " +:+ typeName pred)
      end
  | expr sql args => Ok (sql, args)
  | foreign r => r
  end.

(** [part.ToSql] *)
Definition part_ToSql (pred : value) (args : list value)
  : result (string * list value) :=
  Sqlizer_ToSql (part pred args).

(** ** Writers *)

(** [io.Writer] through [io.WriteString]: the writer after the call and
    the error it returned, if any. *)
Class Writer (W : Type) := io_WriteString : W → string → W * option error.

(** [bytes.Buffer]: its contents. *)
Definition Buffer : Type := string.

(** [bytes.Buffer.WriteString]: appends, and never returns an error. *)
Definition Buffer_WriteString (b : Buffer) (s : string) : Buffer := b +:+ s.

(** [bytes.Buffer.String] *)
Definition Buffer_String (b : Buffer) : string := b.

#[global] Instance Buffer_Writer : Writer Buffer :=
  fun b s => (Buffer_WriteString b s, None).

(** [len(s) == 0] on a Go string. *)
Definition empty_string (s : string) : bool :=
  match s with
  | EmptyString => true
  | String _ _ => false
  end.

(** ** The fragment sequencer (part.go) *)

(** The [range] loop of [appendToSql] from index [i] on, over the
    remaining [parts]; [length] is [len(parts)] of the whole slice. The
    Go pair [([]interface{}, error)] is returned next to the writer. *)
Fixpoint appendToSql_loop {W} `{Writer W} (length i : Z) (parts : list Sqlizer)
    (w : W) (sep : string) (args : list value)
  : result (W * (list value * option error)) :=
  match parts with
  | [] => Ok (w, (args, None))
  | p :: parts =>
      '(partSql, partArgs) ← Sqlizer_ToSql p;
      if empty_string partSql then
        appendToSql_loop length (i + 1) parts w sep args
      else
        let '(w, err) := io_WriteString w partSql in
        match err with
        | Some e => Ok (w, ([], Some e))
        | None =>
            if i <? length - 1 then
              let '(w, err) := io_WriteString w sep in
              match err with
              | Some e => Ok (w, ([], Some e))
              | None =>
                  appendToSql_loop length (i + 1) parts w sep (args ++ partArgs)
              end
            else
              appendToSql_loop length (i + 1) parts w sep (args ++ partArgs)
        end
  end.

(** [appendToSql(parts, w, sep, args)] *)
Definition appendToSql {W} `{Writer W} (parts : list Sqlizer) (w : W)
    (sep : string) (args : list value)
  : result (W * (list value * option error)) :=
  appendToSql_loop (Z.of_nat (List.length parts)) 0 parts w sep args.

(** ** Placeholder formats *)

(** The [PlaceholderFormat] interface: a value of it is its one method,
    [ReplacePlaceholders(sql) (string, error)]. *)
Record PlaceholderFormat : Type :=
  { ReplacePlaceholders : string → string * option error }.

(** Modelled from the spec: the formats are not in the sources; the
    identity format "leaves it unchanged". *)
Definition Question : PlaceholderFormat :=
  {| ReplacePlaceholders := fun sql => (sql, None) |}.

(** ** Helpers shared by the assemblers *)

(** [strings.Join(elems, sep)] *)
Fixpoint strings_Join (elems : list string) (sep : string) : string :=
  match elems with
  | [] => ""
  | [e] => e
  | e :: elems => e +:+ sep +:+ strings_Join elems sep
  end.

(** [args, err = f(...); if err != nil { panic(err) }] *)
Definition must {W} (r : result (W * (list value * option error)))
  : result (W * list value) :=
  '(w, (args, err)) ← r;
  match err with
  | Some e => Panic e
  | None => Ok (w, args)
  end.

(** [args, _ = f(...)] *)
Definition discard_err {W} (r : result (W * (list value * option error)))
  : result (W * list value) :=
  '(w, (args, _)) ← r; Ok (w, args).

(** [sqlStr, err = d.PlaceholderFormat.ReplacePlaceholders(sql.String())]
    followed by the panic on an error. The field is an interface: calling
    the method on the nil interface is a nil dereference. *)
Definition replace_placeholders (f : option PlaceholderFormat) (sql : Buffer)
    (args : list value) : result (string * list value) :=
  match f with
  | None => Panic "runtime error: invalid memory address or nil pointer dereference"
  | Some f =>
      let '(sqlStr, err) := ReplacePlaceholders f (Buffer_String sql) in
      match err with
      | Some e => Panic e
      | None => Ok (sqlStr, args)
      end
  end.

(** ** SELECT (select.go) *)

Record selectData : Type := mkSelectData
  { sel_PlaceholderFormat : option PlaceholderFormat;
    sel_Prefixes : exprs;
    sel_Options : list string;
    sel_Columns : list Sqlizer;
    sel_From : option Sqlizer;
    sel_Joins : list Sqlizer;
    sel_WhereParts : list Sqlizer;
    sel_GroupBys : list string;
    sel_HavingParts : list Sqlizer;
    sel_OrderBys : list string;
    sel_Limit : string;
    sel_Offset : string;
    sel_Suffixes : exprs }.

(** The error of a SELECT without result columns. *)
Definition err_no_columns : error :=
  "select statements must have at least one result column".

(** The record with its WHERE slot replaced. *)
Definition with_WhereParts (ps : list Sqlizer) (d : selectData) : selectData :=
  mkSelectData (sel_PlaceholderFormat d) (sel_Prefixes d) (sel_Options d)
    (sel_Columns d) (sel_From d) (sel_Joins d) ps (sel_GroupBys d)
    (sel_HavingParts d) (sel_OrderBys d) (sel_Limit d) (sel_Offset d)
    (sel_Suffixes d).

(** [len(xs) > 0] *)
Definition nonempty {A} (xs : list A) : bool :=
  0 <? Z.of_nat (List.length xs).

Section Assemblers.

(** [exprs.AppendToSql(w, sep, args)] is called by both assemblers on a
    [bytes.Buffer]; its body is not in the sources. *)
Variable exprs_AppendToSql :
  exprs → Buffer → string → list value →
  result (Buffer * (list value * option error)).

(** [selectData.ToSql] *)
Definition selectData_ToSql (d : selectData) : result (string * list value) :=
  if Z.of_nat (List.length (sel_Columns d)) =? 0 then Panic err_no_columns else
  let sql : Buffer := "" in
  let args : list value := [] in
  '(sql, args) ←
    (if nonempty (sel_Prefixes d) then
       '(sql, args) ← discard_err (exprs_AppendToSql (sel_Prefixes d) sql " " args);
       Ok (Buffer_WriteString sql " ", args)
     else Ok (sql, args));
  let sql := Buffer_WriteString sql "SELECT " in
  let sql :=
    if nonempty (sel_Options d) then
      Buffer_WriteString
        (Buffer_WriteString sql (strings_Join (sel_Options d) " ")) " "
    else sql in
  '(sql, args) ←
    (if nonempty (sel_Columns d) then
       must (appendToSql (sel_Columns d) sql ", " args)
     else Ok (sql, args));
  '(sql, args) ←
    (match sel_From d with
     | Some from =>
         must (appendToSql [from] (Buffer_WriteString sql " FROM ") "" args)
     | None => Ok (sql, args)
     end);
  '(sql, args) ←
    (if nonempty (sel_Joins d) then
       must (appendToSql (sel_Joins d) (Buffer_WriteString sql " ") " " args)
     else Ok (sql, args));
  '(sql, args) ←
    (match sel_WhereParts d with
     | [] => Ok (sql, args)
     | first :: _ =>
         '(partSql, _) ← Sqlizer_ToSql first;
         if (Z.of_nat (List.length (sel_WhereParts d)) =? 1)
              && empty_string partSql
         then Ok (sql, args)
         else must (appendToSql (sel_WhereParts d)
                      (Buffer_WriteString sql " WHERE ") " AND " args)
     end);
  let sql :=
    if nonempty (sel_GroupBys d) then
      Buffer_WriteString (Buffer_WriteString sql " GROUP BY ")
        (strings_Join (sel_GroupBys d) ", ")
    else sql in
  '(sql, args) ←
    (if nonempty (sel_HavingParts d) then
       must (appendToSql (sel_HavingParts d)
               (Buffer_WriteString sql " HAVING ") " AND " args)
     else Ok (sql, args));
  let sql :=
    if nonempty (sel_OrderBys d) then
      Buffer_WriteString (Buffer_WriteString sql " ORDER BY ")
        (strings_Join (sel_OrderBys d) ", ")
    else sql in
  let sql :=
    if empty_string (sel_Limit d) then sql
    else Buffer_WriteString (Buffer_WriteString sql " LIMIT ") (sel_Limit d) in
  let sql :=
    if empty_string (sel_Offset d) then sql
    else Buffer_WriteString (Buffer_WriteString sql " OFFSET ") (sel_Offset d) in
  '(sql, args) ←
    (if nonempty (sel_Suffixes d) then
       discard_err
         (exprs_AppendToSql (sel_Suffixes d) (Buffer_WriteString sql " ") " " args)
     else Ok (sql, args));
  replace_placeholders (sel_PlaceholderFormat d) sql args.

End Assemblers.

(** ** The builder state store (github.com/lann/builder) *)

(** A builder value references its snapshot: a persistent map from
    property names to the values stored under them. *)
Definition Builder : Type := positive.

(** What is stored under a property name: one Go value ([builder.Set]),
    the ordered list grown by [builder.Append] and [builder.Extend], a
    placeholder format, or a pointer to another builder. *)
Inductive field : Type :=
  | FValue (v : value)
  | FList (vs : list value)
  | FFormat (f : PlaceholderFormat)
  | FBuilder (b : Builder).

Abbreviation props := (gmap string field).
Abbreviation store := (gmap Builder props).

(** Computations that read or extend the store and may panic. *)
Definition M (A : Type) : Type := store → result A * store.

Definition M_ret {A} (a : A) : M A := fun σ => (Ok a, σ).

Definition M_bind {A B} (m : M A) (k : A → M B) : M B := fun σ =>
  match m σ with
  | (Ok a, σ) => k a σ
  | (Panic e, σ) => (Panic e, σ)
  end.

Definition M_lift {A} (r : result A) : M A := fun σ => (r, σ).

#[global] Instance M_mret : MRet M := @M_ret.
#[global] Instance M_mbind : MBind M := fun _ _ k m => M_bind m k.

(** The snapshot a builder references; the zero builder references the
    empty map. *)
Definition builder_props (b : Builder) (σ : store) : props :=
  default ∅ (σ !! b).

(** Modelled from the spec: the store is not in the sources. "every add
    clause operation returns a new container with one field changed,
    leaving prior containers untouched"; "set replaces a field
    wholesale". The new snapshot is allocated at an unused reference. *)
Definition builder_Set (b : Builder) (name : string) (v : field) : M Builder :=
  fun σ =>
    let b' := fresh (dom σ) in
    (Ok b', <[b' := <[name := v]> (builder_props b σ)]> σ).

(** Modelled from the spec: "extend adds multiple items preserving their
    relative order". A property that does not hold a list starts a new
    one. *)
Definition builder_Extend (b : Builder) (name : string) (vs : list value)
  : M Builder :=
  fun σ =>
    let old := match builder_props b σ !! name with
               | Some (FList l) => l
               | _ => []
               end in
    builder_Set b name (FList (old ++ vs)) σ.

(** Modelled from the spec: "append adds one fragment to an ordered
    field". *)
Definition builder_Append (b : Builder) (name : string) (v : value)
  : M Builder :=
  builder_Extend b name [v].

(** *** Reading a snapshot into a struct ([builder.GetStruct]) *)

Definition scan_error (name : string) : error :=
  "reflect.Set: value is not assignable to field " +:+ name.

Definition as_string (v : value) : option string :=
  match v with VString s => Some s | _ => None end.

Definition as_Sqlizer (v : value) : option Sqlizer :=
  match v with VSqlizer f => Some f | _ => None end.

Definition as_expr (v : value) : option (string * list value) :=
  match v with VSqlizer (expr sql args) => Some (sql, args) | _ => None end.

Definition as_slice (v : value) : option (list value) :=
  match v with VSlice vs => Some vs | _ => None end.

(** A slice-typed struct field: absent is the nil slice, a list is
    converted element by element. *)
Definition scan_list {A} (conv : value → option A) (m : props) (name : string)
  : result (list A) :=
  match m !! name with
  | None => Ok []
  | Some (FList vs) =>
      match mapM conv vs with
      | Some l => Ok l
      | None => Panic (scan_error name)
      end
  | Some _ => Panic (scan_error name)
  end.

(** A string-typed struct field. *)
Definition scan_string (m : props) (name : string) : result string :=
  match m !! name with
  | None => Ok ""
  | Some (FValue (VString s)) => Ok s
  | Some _ => Panic (scan_error name)
  end.

(** An interface-typed struct field holding a [Sqlizer]. *)
Definition scan_Sqlizer (m : props) (name : string) : result (option Sqlizer) :=
  match m !! name with
  | None => Ok None
  | Some (FValue (VSqlizer f)) => Ok (Some f)
  | Some _ => Panic (scan_error name)
  end.

Definition scan_format (m : props) (name : string)
  : result (option PlaceholderFormat) :=
  match m !! name with
  | None => Ok None
  | Some (FFormat f) => Ok (Some f)
  | Some _ => Panic (scan_error name)
  end.

(** A pointer-typed struct field holding a builder. *)
Definition scan_builder (m : props) (name : string) : result (option Builder) :=
  match m !! name with
  | None => Ok None
  | Some (FBuilder b) => Ok (Some b)
  | Some _ => Panic (scan_error name)
  end.

(** [builder.GetStruct(b).(selectData)] on the snapshot [m]. *)
Definition scan_selectData (m : props) : result selectData :=
  f ← scan_format m "PlaceholderFormat";
  prefixes ← scan_list as_expr m "Prefixes";
  options ← scan_list as_string m "Options";
  columns ← scan_list as_Sqlizer m "Columns";
  from ← scan_Sqlizer m "From";
  joins ← scan_list as_Sqlizer m "Joins";
  whereParts ← scan_list as_Sqlizer m "WhereParts";
  groupBys ← scan_list as_string m "GroupBys";
  havingParts ← scan_list as_Sqlizer m "HavingParts";
  orderBys ← scan_list as_string m "OrderBys";
  limit ← scan_string m "Limit";
  offset ← scan_string m "Offset";
  suffixes ← scan_list as_expr m "Suffixes";
  Ok (mkSelectData f prefixes options columns from joins whereParts groupBys
        havingParts orderBys limit offset suffixes).

Definition GetStruct_selectData (b : Builder) : M selectData :=
  fun σ => (scan_selectData (builder_props b σ), σ).

(** ** INSERT (insert.go) *)

Record insertData : Type := mkInsertData
  { ins_PlaceholderFormat : option PlaceholderFormat;
    ins_Prefixes : exprs;
    ins_Options : list string;
    ins_Into : string;
    ins_Columns : list string;
    ins_Values : list (list value);
    ins_Suffixes : exprs;
    ins_Select : option Builder }.

Definition err_no_table : error := "insert statements must specify a table".

Definition err_no_payload : error :=
  "insert statements must have at least one set of values or select clause".

(** The record with its rows replaced. *)
Definition with_Values (rows : list (list value)) (d : insertData) : insertData :=
  mkInsertData (ins_PlaceholderFormat d) (ins_Prefixes d) (ins_Options d)
    (ins_Into d) (ins_Columns d) rows (ins_Suffixes d) (ins_Select d).

(** [builder.GetStruct(b).(insertData)] on the snapshot [m]. *)
Definition scan_insertData (m : props) : result insertData :=
  f ← scan_format m "PlaceholderFormat";
  prefixes ← scan_list as_expr m "Prefixes";
  options ← scan_list as_string m "Options";
  into ← scan_string m "Into";
  columns ← scan_list as_string m "Columns";
  values ← scan_list as_slice m "Values";
  suffixes ← scan_list as_expr m "Suffixes";
  select ← scan_builder m "Select";
  Ok (mkInsertData f prefixes options into columns values suffixes select).

Definition GetStruct_insertData (b : Builder) : M insertData :=
  fun σ => (scan_insertData (builder_props b σ), σ).

(** The inner loop of [appendValuesToSQL]: the values of one row from
    index [v] on, filling [valueStrings] in place. *)
Fixpoint values_loop (v : nat) (row : list value) (valueStrings : list string)
    (args : list value) : list string * list value :=
  match row with
  | [] => (valueStrings, args)
  | val :: row =>
      match as_expr val with
      | Some (e_sql, e_args) =>
          values_loop (S v) row (<[v := e_sql]> valueStrings) (args ++ e_args)
      | None =>
          values_loop (S v) row (<[v := "?"]> valueStrings) (args ++ [val])
      end
  end.

(** The outer loop of [appendValuesToSQL]: the rows from index [r] on. *)
Fixpoint rows_loop (r : nat) (rows : list (list value))
    (valuesStrings : list string) (args : list value)
  : list string * list value :=
  match rows with
  | [] => (valuesStrings, args)
  | row :: rows =>
      let valueStrings := replicate (List.length row) "" in
      let '(valueStrings, args) := values_loop 0 row valueStrings args in
      rows_loop (S r) rows
        (<[r := "(" +:+ strings_Join valueStrings "," +:+ ")"]> valuesStrings)
        args
  end.

(** [insertData.appendValuesToSQL]; the results of the writes are not
    looked at. *)
Definition appendValuesToSQL {W} `{Writer W} (d : insertData) (w : W)
    (args : list value) : W * (list value * option error) :=
  if Z.of_nat (List.length (ins_Values d)) =? 0 then
    (w, (args, Some "values for insert statements are not set"))
  else
    let '(w, _) := io_WriteString w "VALUES " in
    let valuesStrings := replicate (List.length (ins_Values d)) "" in
    let '(valuesStrings, args) :=
      rows_loop 0 (ins_Values d) valuesStrings args in
    let '(w, _) := io_WriteString w (strings_Join valuesStrings ",") in
    (w, (args, None)).

(** The clause-adding calls of the two builders, as data: one constructor
    per method, with the method's arguments. The comparison shorthands
    ([Eq], [Gt], ...) are [Where] on a predicate map; [Prefix], [Suffix],
    [FromSelect] and [SetMap] go through constructors that are not in the
    sources and are left out. *)
Inductive clause_call : Type :=
  | Select_PlaceholderFormat (f : PlaceholderFormat)
  | Select_Options (options : list string)
  | Select_Distinct
  | Select_Columns (columns : list string)
  | Select_Column (column : value) (args : list value)
  | Select_From (from : string)
  | Select_JoinClause (pred : value) (args : list value)
  | Select_Join (join : string) (rest : list value)
  | Select_LeftJoin (join : string) (rest : list value)
  | Select_RightJoin (join : string) (rest : list value)
  | Select_Where (pred : value) (args : list value)
  | Select_Condition
  | Select_Expr (sql : string) (args : list value)
  | Select_GroupBy (groupBys : list string)
  | Select_Having (pred : value) (rest : list value)
  | Select_OrderBy (orderBys : list string)
  | Select_Limit (limit : Z)
  | Select_Offset (offset : Z)
  | Insert_PlaceholderFormat (f : PlaceholderFormat)
  | Insert_Options (options : list string)
  | Insert_Into (from : string)
  | Insert_Columns (columns : list string)
  | Insert_Values (values : list value)
  | Insert_Select (sb : Builder).

Section Builders.

Variable exprs_AppendToSql :
  exprs → Buffer → string → list value →
  result (Buffer * (list value * option error)).

(** [newWherePart(pred, args...)] wraps a predicate for the WHERE and
    HAVING slots; its body is not in the sources. *)
Variable newWherePart : value → list value → Sqlizer.

(** *** SelectBuilder *)

(** [SelectBuilder.ToSql] *)
Definition SelectBuilder_ToSql (b : Builder) : M (string * list value) :=
  data ← GetStruct_selectData b;
  M_lift (selectData_ToSql exprs_AppendToSql data).

Definition SelectBuilder_PlaceholderFormat (b : Builder) (f : PlaceholderFormat)
  : M Builder :=
  builder_Set b "PlaceholderFormat" (FFormat f).

Definition SelectBuilder_Options (b : Builder) (options : list string)
  : M Builder :=
  builder_Extend b "Options" (VString <$> options).

Definition SelectBuilder_Distinct (b : Builder) : M Builder :=
  SelectBuilder_Options b ["DISTINCT"].

Definition SelectBuilder_Columns (b : Builder) (columns : list string)
  : M Builder :=
  let parts := (fun str => VSqlizer (newPart (VString str) [])) <$> columns in
  builder_Extend b "Columns" parts.

Definition SelectBuilder_Column (b : Builder) (column : value)
    (args : list value) : M Builder :=
  builder_Append b "Columns" (VSqlizer (newPart column args)).

Definition SelectBuilder_From (b : Builder) (from : string) : M Builder :=
  builder_Set b "From" (FValue (VSqlizer (newPart (VString from) []))).

Definition SelectBuilder_JoinClause (b : Builder) (pred : value)
    (args : list value) : M Builder :=
  builder_Append b "Joins" (VSqlizer (newPart pred args)).

Definition SelectBuilder_Join (b : Builder) (join : string) (rest : list value)
  : M Builder :=
  SelectBuilder_JoinClause b (VString ("JOIN " +:+ join)) rest.

Definition SelectBuilder_LeftJoin (b : Builder) (join : string)
    (rest : list value) : M Builder :=
  SelectBuilder_JoinClause b (VString ("LEFT JOIN " +:+ join)) rest.

Definition SelectBuilder_RightJoin (b : Builder) (join : string)
    (rest : list value) : M Builder :=
  SelectBuilder_JoinClause b (VString ("RIGHT JOIN " +:+ join)) rest.

Definition SelectBuilder_Where (b : Builder) (pred : value) (args : list value)
  : M Builder :=
  builder_Append b "WhereParts" (VSqlizer (newWherePart pred args)).

Definition SelectBuilder_Condition (b : Builder) : M Builder :=
  builder_Append b "WhereParts" (VSqlizer (newWherePart (VString "") [])).

Definition SelectBuilder_Expr (b : Builder) (sql : string) (args : list value)
  : M Builder :=
  builder_Append b "WhereParts"
    (VSqlizer (newWherePart (VSqlizer (expr sql args)) [])).

Definition SelectBuilder_GroupBy (b : Builder) (groupBys : list string)
  : M Builder :=
  builder_Extend b "GroupBys" (VString <$> groupBys).

Definition SelectBuilder_Having (b : Builder) (pred : value) (rest : list value)
  : M Builder :=
  builder_Append b "HavingParts" (VSqlizer (newWherePart pred rest)).

Definition SelectBuilder_OrderBy (b : Builder) (orderBys : list string)
  : M Builder :=
  builder_Extend b "OrderBys" (VString <$> orderBys).

Definition SelectBuilder_Limit (b : Builder) (limit : Z) : M Builder :=
  builder_Set b "Limit" (FValue (VString (pretty limit))).

Definition SelectBuilder_Offset (b : Builder) (offset : Z) : M Builder :=
  builder_Set b "Offset" (FValue (VString (pretty offset))).

(** *** InsertBuilder *)

(** [insertData.appendSelectToSQL] *)
Definition appendSelectToSQL {W} `{Writer W} (d : insertData) (w : W)
    (args : list value) : M (W * (list value * option error)) :=
  match ins_Select d with
  | None =>
      mret (w, (args, Some "select clause for insert statements are not set"))
  | Some select =>
      '(selectClause, sArgs) ← SelectBuilder_ToSql select;
      let '(w, _) := io_WriteString w selectClause in
      mret (w, (args ++ sArgs, None))
  end.

(** [insertData.ToSql]. The payload step yields [inl args] where the
    source leaves through the bare [return] after a failed
    [appendValuesToSQL], with [sqlStr] still empty. *)
Definition insertData_ToSql (d : insertData) : M (string * list value) :=
  if Z.of_nat (String.length (ins_Into d)) =? 0 then
    M_lift (Panic err_no_table)
  else if (Z.of_nat (List.length (ins_Values d)) =? 0)
            && bool_decide (ins_Select d = None) then
    M_lift (Panic err_no_payload)
  else
    let sql : Buffer := "" in
    let args : list value := [] in
    '(sql, args) ← M_lift
      (if nonempty (ins_Prefixes d) then
         '(sql, args) ←
           discard_err (exprs_AppendToSql (ins_Prefixes d) sql " " args);
         Ok (Buffer_WriteString sql " ", args)
       else Ok (sql, args));
    let sql := Buffer_WriteString sql "INSERT " in
    let sql :=
      if nonempty (ins_Options d) then
        Buffer_WriteString
          (Buffer_WriteString sql (strings_Join (ins_Options d) " ")) " "
      else sql in
    let sql := Buffer_WriteString sql "INTO " in
    let sql := Buffer_WriteString sql (ins_Into d) in
    let sql := Buffer_WriteString sql " " in
    let sql :=
      if nonempty (ins_Columns d) then
        Buffer_WriteString
          (Buffer_WriteString (Buffer_WriteString sql "(")
             (strings_Join (ins_Columns d) ",")) ") "
      else sql in
    payload ←
      (match ins_Select d with
       | Some _ =>
           r ← appendSelectToSQL d sql args;
           p ← M_lift (must (Ok r));
           mret (inr p)
       | None =>
           let '(sql, (args, err)) := appendValuesToSQL d sql args in
           match err with
           | Some _ => mret (inl args)
           | None => mret (inr (sql, args))
           end
       end);
    match payload with
    | inl args => mret ("", args)
    | inr (sql, args) =>
        '(sql, args) ← M_lift
          (if nonempty (ins_Suffixes d) then
             discard_err
               (exprs_AppendToSql (ins_Suffixes d) (Buffer_WriteString sql " ")
                  " " args)
           else Ok (sql, args));
        M_lift (replace_placeholders (ins_PlaceholderFormat d) sql args)
    end.

(** [InsertBuilder.ToSql] *)
Definition InsertBuilder_ToSql (b : Builder) : M (string * list value) :=
  data ← GetStruct_insertData b;
  insertData_ToSql data.

Definition InsertBuilder_PlaceholderFormat (b : Builder) (f : PlaceholderFormat)
  : M Builder :=
  builder_Set b "PlaceholderFormat" (FFormat f).

Definition InsertBuilder_Options (b : Builder) (options : list string)
  : M Builder :=
  builder_Extend b "Options" (VString <$> options).

Definition InsertBuilder_Into (b : Builder) (from : string) : M Builder :=
  builder_Set b "Into" (FValue (VString from)).

Definition InsertBuilder_Columns (b : Builder) (columns : list string)
  : M Builder :=
  builder_Extend b "Columns" (VString <$> columns).

Definition InsertBuilder_Values (b : Builder) (values : list value)
  : M Builder :=
  builder_Append b "Values" (VSlice values).

Definition InsertBuilder_Select (b : Builder) (sb : Builder) : M Builder :=
  builder_Set b "Select" (FBuilder sb).

(** The builder derived from [b] by one clause-adding call. *)
Definition derive (c : clause_call) (b : Builder) : M Builder :=
  match c with
  | Select_PlaceholderFormat f => SelectBuilder_PlaceholderFormat b f
  | Select_Options options => SelectBuilder_Options b options
  | Select_Distinct => SelectBuilder_Distinct b
  | Select_Columns columns => SelectBuilder_Columns b columns
  | Select_Column column args => SelectBuilder_Column b column args
  | Select_From from => SelectBuilder_From b from
  | Select_JoinClause pred args => SelectBuilder_JoinClause b pred args
  | Select_Join join rest => SelectBuilder_Join b join rest
  | Select_LeftJoin join rest => SelectBuilder_LeftJoin b join rest
  | Select_RightJoin join rest => SelectBuilder_RightJoin b join rest
  | Select_Where pred args => SelectBuilder_Where b pred args
  | Select_Condition => SelectBuilder_Condition b
  | Select_Expr sql args => SelectBuilder_Expr b sql args
  | Select_GroupBy groupBys => SelectBuilder_GroupBy b groupBys
  | Select_Having pred rest => SelectBuilder_Having b pred rest
  | Select_OrderBy orderBys => SelectBuilder_OrderBy b orderBys
  | Select_Limit limit => SelectBuilder_Limit b limit
  | Select_Offset offset => SelectBuilder_Offset b offset
  | Insert_PlaceholderFormat f => InsertBuilder_PlaceholderFormat b f
  | Insert_Options options => InsertBuilder_Options b options
  | Insert_Into from => InsertBuilder_Into b from
  | Insert_Columns columns => InsertBuilder_Columns b columns
  | Insert_Values values => InsertBuilder_Values b values
  | Insert_Select sb => InsertBuilder_Select b sb
  end.

End Builders.

(** ** Reference definitions used to state the properties *)

(** Modelled from the spec: [exprs.AppendToSql] is not in the sources. The
    prefix and suffix slots hold raw fragments; their texts are written
    with the separator between consecutive ones and their arguments are
    appended in order. It instantiates the assemblers at concrete
    snapshots. *)
Fixpoint exprs_AppendToSql_loop (i : Z) (es : exprs) (w : Buffer) (sep : string)
    (args : list value) : result (Buffer * (list value * option error)) :=
  match es with
  | [] => Ok (w, (args, None))
  | (e_sql, e_args) :: es =>
      let w := if 0 <? i then Buffer_WriteString w sep else w in
      exprs_AppendToSql_loop (i + 1) es (Buffer_WriteString w e_sql) sep
        (args ++ e_args)
  end.

Definition exprs_AppendToSql_model (es : exprs) (w : Buffer) (sep : string)
    (args : list value) : result (Buffer * (list value * option error)) :=
  exprs_AppendToSql_loop 0 es w sep args.

(** [parts] render, child by child, to [rs]. *)
Definition renders_to (parts : list Sqlizer) (rs : list (string * list value))
  : Prop :=
  Forall2 (fun p r => Sqlizer_ToSql p = Ok r) parts rs.

(** The sequencer as the spec words it: the non-empty texts with the
    separator between consecutive ones. *)
Definition sequence_text (sep : string) (rs : list (string * list value))
  : string :=
  strings_Join (filter (fun s => empty_string s = false) (rs.*1)) sep.

(** The arguments of all children, in child order. *)
Definition all_args (rs : list (string * list value)) : list value :=
  concat (rs.*2).

(** The arguments of the children whose text is not empty, in child
    order. *)
Definition kept_args (rs : list (string * list value)) : list value :=
  concat ((filter (fun r => empty_string r.1 = false) rs).*2).

(** The text the loop of [appendToSql] writes for rendered children [rs]
    from index [i] on: each non-empty text, followed by the separator
    unless its index is the last one of the slice. *)
Fixpoint written_text (length i : Z) (sep : string)
    (rs : list (string * list value)) : string :=
  match rs with
  | [] => ""
  | (s, _) :: rs =>
      (if empty_string s then ""
       else s +:+ (if i <? length - 1 then sep else ""))
      +:+ written_text length (i + 1) sep rs
  end.

(** The argument list of the sequencer as the spec words it: every
    child's arguments, those of children with empty text included. *)
Definition sequencer_keeps_all_args (parts : list Sqlizer) : Prop :=
  ∀ rs (w : Buffer) sep args,
    renders_to parts rs →
    ∃ w', appendToSql parts w sep args = Ok (w', (args ++ all_args rs, None)).

(** Empty-predicate suppression as the spec words it: when every
    predicate of the WHERE slot renders to empty text, the rendered SQL
    has no occurrence of the keyword. *)
Definition where_keyword_suppressed
    (exprs_AppendToSql :
       exprs → Buffer → string → list value →
       result (Buffer * (list value * option error)))
    (d : selectData) : Prop :=
  Forall (fun p => ∃ a, Sqlizer_ToSql p = Ok ("", a)) (sel_WhereParts d) →
  ∀ sql args,
    selectData_ToSql exprs_AppendToSql d = Ok (sql, args) →
    String.index 0 "WHERE" sql = None.

(** The text of one inserted value and the arguments it binds. *)
Definition value_sql (val : value) : string :=
  match val with
  | VSqlizer (expr e_sql _) => e_sql
  | _ => "?"
  end.

Definition value_args (val : value) : list value :=
  match val with
  | VSqlizer (expr _ e_args) => e_args
  | _ => [val]
  end.

(** One row: its values, comma-joined, in parentheses. *)
Definition row_sql (row : list value) : string :=
  "(" +:+ strings_Join (value_sql <$> row) "," +:+ ")".

(** The arguments bound by one row, and by all rows, in order. *)
Definition row_args (row : list value) : list value :=
  concat (value_args <$> row).

Definition rows_args (rows : list (list value)) : list value :=
  concat (row_args <$> rows).

(** The text of an INSERT between the prefix and the payload. *)
Definition insert_head (d : insertData) : string :=
  "INSERT "
  +:+ (if nonempty (ins_Options d)
       then strings_Join (ins_Options d) " " +:+ " " else "")
  +:+ "INTO " +:+ ins_Into d +:+ " "
  +:+ (if nonempty (ins_Columns d)
       then "(" +:+ strings_Join (ins_Columns d) "," +:+ ") " else "").

(** The sub-select an insert snapshot points to, if any, is allocated. *)
Definition select_allocated (b : Builder) (σ : store) : Prop :=
  ∀ sb, builder_props b σ !! "Select" = Some (FBuilder sb) → sb ∈ dom σ.

(** ** Concrete snapshots *)

(** A store with one SELECT builder, at reference 1:
    [Select("id").From("users").Where("x = ?", 5)] in the identity
    placeholder format. *)
Definition example_select_props : props :=
  <["PlaceholderFormat" := FFormat Question]>
    (<["Columns" := FList [VSqlizer (part (VString "id") [])]]>
       (<["From" := FValue (VSqlizer (part (VString "users") []))]>
          (<["WhereParts" :=
               FList [VSqlizer (part (VString "x = ?") [VInt 5])]]> ∅))).

Definition example_store : store := {[ 1%positive := example_select_props ]}.

(** An INSERT snapshot with two rows and no sub-select. *)
Definition example_insert_values : insertData :=
  mkInsertData (Some Question) [] [] "t" ["a"; "b"; "c"]
    [[VInt 1; VSqlizer (expr "NOW()" []); VString "x"];
     [VInt 2; VSqlizer (expr "f(?)" [VInt 7]); VNil]]
    [] None.

(** An INSERT snapshot with one row and the sub-select at reference 1. *)
Definition example_insert_both : insertData :=
  mkInsertData (Some Question) [] [] "t" ["a"] [[VInt 1]] []
    (Some 1%positive).

(** INSERT snapshots without a table, and without a payload. *)
Definition example_insert_no_table : insertData :=
  mkInsertData (Some Question) [] [] "" [] [[VInt 1]] [] None.

Definition example_insert_no_payload : insertData :=
  mkInsertData (Some Question) [] [] "t" [] [] [] None.

(** ** Reference definitions for the further properties *)

(** The number of positional placeholders, the character [?], in a text. *)
Fixpoint count_placeholders (s : string) : nat :=
  match s with
  | EmptyString => 0%nat
  | String c s =>
      ((if String.eqb (String c "") "?" then 1 else 0)
       + count_placeholders s)%nat
  end.

(** A rendered fragment binds as many arguments as its text has
    placeholders. *)
Definition has_parity (r : string * list value) : Prop :=
  count_placeholders r.1 = List.length r.2.

(** [parts] all render to empty text. *)
Definition all_render_empty (parts : list Sqlizer) : Prop :=
  Forall (fun p => ∃ a, Sqlizer_ToSql p = Ok ("", a)) parts.

(** The text the sequencer writes for one slot whose children render to
    [rs]. *)
Definition slot_text (sep : string) (rs : list (string * list value)) : string :=
  written_text (Z.of_nat (List.length rs)) 0 sep rs.

(** The source slot of a SELECT renders to [fr]. *)
Definition from_renders_to (from : option Sqlizer)
    (fr : option (string * list value)) : Prop :=
  match from, fr with
  | Some f, Some r => Sqlizer_ToSql f = Ok r
  | None, None => True
  | _, _ => False
  end.

(** Whether a WHERE slot rendering to [ws] gets its keyword: not when it
    is empty, and not when it is one predicate with empty text. *)
Definition where_written (ws : list (string * list value)) : bool :=
  match ws with
  | [] => false
  | [(s, _)] => negb (empty_string s)
  | _ => true
  end.

(** The text of a SELECT without prefixes and suffixes, slot by slot, from
    the rendered children of its fragment slots. *)
Definition select_text (d : selectData) (cs : list (string * list value))
    (fr : option (string * list value)) (js ws hs : list (string * list value))
  : string :=
  "SELECT "
  +:+ (if nonempty (sel_Options d)
       then strings_Join (sel_Options d) " " +:+ " " else "")
  +:+ slot_text ", " cs
  +:+ match fr with Some r => " FROM " +:+ r.1 | None => "" end
  +:+ (if nonempty js then " " +:+ slot_text " " js else "")
  +:+ (if where_written ws then " WHERE " +:+ slot_text " AND " ws else "")
  +:+ (if nonempty (sel_GroupBys d)
       then " GROUP BY " +:+ strings_Join (sel_GroupBys d) ", " else "")
  +:+ (if nonempty hs then " HAVING " +:+ slot_text " AND " hs else "")
  +:+ (if nonempty (sel_OrderBys d)
       then " ORDER BY " +:+ strings_Join (sel_OrderBys d) ", " else "")
  +:+ (if empty_string (sel_Limit d) then "" else " LIMIT " +:+ sel_Limit d)
  +:+ (if empty_string (sel_Offset d) then "" else " OFFSET " +:+ sel_Offset d).

(** The arguments of a SELECT without prefixes and suffixes, in slot
    order. *)
Definition select_args (cs : list (string * list value))
    (fr : option (string * list value)) (js ws hs : list (string * list value))
  : list value :=
  kept_args cs ++ kept_args (option_list fr) ++ kept_args js
    ++ kept_args ws ++ kept_args hs.

(** A value that is not of the expression type. *)
Definition plain_value (val : value) : Prop := as_expr val = None.

(** A row of [n] plain values as text: [n] placeholders, comma-joined, in
    parentheses. *)
Definition placeholders_row (n : nat) : string :=
  "(" +:+ strings_Join (replicate n "?") "," +:+ ")".

(** An inserted value binds as many arguments as its text has
    placeholders; this is about expression values only. *)
Definition value_has_parity (val : value) : Prop :=
  count_placeholders (value_sql val) = List.length (value_args val).

(** SELECT and INSERT snapshots with one field replaced. *)
Definition with_Columns (cols : list Sqlizer) (d : selectData) : selectData :=
  mkSelectData (sel_PlaceholderFormat d) (sel_Prefixes d) (sel_Options d)
    cols (sel_From d) (sel_Joins d) (sel_WhereParts d) (sel_GroupBys d)
    (sel_HavingParts d) (sel_OrderBys d) (sel_Limit d) (sel_Offset d)
    (sel_Suffixes d).

Definition with_From (from : option Sqlizer) (d : selectData) : selectData :=
  mkSelectData (sel_PlaceholderFormat d) (sel_Prefixes d) (sel_Options d)
    (sel_Columns d) from (sel_Joins d) (sel_WhereParts d) (sel_GroupBys d)
    (sel_HavingParts d) (sel_OrderBys d) (sel_Limit d) (sel_Offset d)
    (sel_Suffixes d).

Definition with_Limit (limit : string) (d : selectData) : selectData :=
  mkSelectData (sel_PlaceholderFormat d) (sel_Prefixes d) (sel_Options d)
    (sel_Columns d) (sel_From d) (sel_Joins d) (sel_WhereParts d)
    (sel_GroupBys d) (sel_HavingParts d) (sel_OrderBys d) limit (sel_Offset d)
    (sel_Suffixes d).

Definition with_Into (into : string) (d : insertData) : insertData :=
  mkInsertData (ins_PlaceholderFormat d) (ins_Prefixes d) (ins_Options d)
    into (ins_Columns d) (ins_Values d) (ins_Suffixes d) (ins_Select d).

Definition with_Select (sb : option Builder) (d : insertData) : insertData :=
  mkInsertData (ins_PlaceholderFormat d) (ins_Prefixes d) (ins_Options d)
    (ins_Into d) (ins_Columns d) (ins_Values d) (ins_Suffixes d) sb.

Definition with_PlaceholderFormat (f : option PlaceholderFormat)
    (d : selectData) : selectData :=
  mkSelectData f (sel_Prefixes d) (sel_Options d)
    (sel_Columns d) (sel_From d) (sel_Joins d) (sel_WhereParts d)
    (sel_GroupBys d) (sel_HavingParts d) (sel_OrderBys d) (sel_Limit d)
    (sel_Offset d) (sel_Suffixes d).

(** [Select(columns...).From(from)] in the format [f], on the builder
    [b], rendered. *)
Definition select_from_program
    (exprs_AppendToSql :
       exprs → Buffer → string → list value →
       result (Buffer * (list value * option error)))
    (b : Builder) (columns : list string) (from : string)
    (f : PlaceholderFormat) : M (string * list value) :=
  b ← SelectBuilder_Columns b columns;
  b ← SelectBuilder_From b from;
  b ← SelectBuilder_PlaceholderFormat b f;
  SelectBuilder_ToSql exprs_AppendToSql b.

(** [Insert(into).Columns(columns...).Values(values...)] in the format
    [f], on the builder [b], rendered. *)
Definition insert_values_program
    (exprs_AppendToSql :
       exprs → Buffer → string → list value →
       result (Buffer * (list value * option error)))
    (b : Builder) (into : string) (columns : list string)
    (values : list value) (f : PlaceholderFormat) : M (string * list value) :=
  b ← InsertBuilder_Into b into;
  b ← InsertBuilder_Columns b columns;
  b ← InsertBuilder_Values b values;
  b ← InsertBuilder_PlaceholderFormat b f;
  InsertBuilder_ToSql exprs_AppendToSql b.

(** The SELECT snapshot of the builder at reference 1 of
    [example_store], and what its fragment slots render to. *)
Definition example_select : selectData :=
  mkSelectData (Some Question) [] [] [part (VString "id") []]
    (Some (part (VString "users") [])) []
    [part (VString "x = ?") [VInt 5]] [] [] [] "" "" [].

(** A SELECT snapshot with every slot filled. *)
Definition example_select_full : selectData :=
  mkSelectData (Some Question) [] ["DISTINCT"]
    [part (VString "id") []; part (VString "IF(a = ?, 1, 0)") [VInt 1]]
    (Some (part (VString "users") []))
    [part (VString "JOIN t ON t.k = ?") [VInt 2]]
    [part (VString "") []; part (VString "x = ?") [VInt 3]]
    ["id"] [part (VString "n > ?") [VInt 4]] ["id DESC"] "10" "20" [].

(** The text of a SELECT without prefixes and suffixes up to its ORDER BY
    slot, and the text of its OFFSET slot. *)
Definition select_text_before_limit (d : selectData)
    (cs : list (string * list value)) (fr : option (string * list value))
    (js ws hs : list (string * list value)) : string :=
  "SELECT "
  +:+ (if nonempty (sel_Options d)
       then strings_Join (sel_Options d) " " +:+ " " else "")
  +:+ slot_text ", " cs
  +:+ match fr with Some r => " FROM " +:+ r.1 | None => "" end
  +:+ (if nonempty js then " " +:+ slot_text " " js else "")
  +:+ (if where_written ws then " WHERE " +:+ slot_text " AND " ws else "")
  +:+ (if nonempty (sel_GroupBys d)
       then " GROUP BY " +:+ strings_Join (sel_GroupBys d) ", " else "")
  +:+ (if nonempty hs then " HAVING " +:+ slot_text " AND " hs else "")
  +:+ (if nonempty (sel_OrderBys d)
       then " ORDER BY " +:+ strings_Join (sel_OrderBys d) ", " else "").

Definition offset_text (d : selectData) : string :=
  if empty_string (sel_Offset d) then "" else " OFFSET " +:+ sel_Offset d.

(** ** Fragments whose render reads a state *)

(** Computations over a state of type [World] that may panic. *)
Definition MW (World A : Type) : Type := World → result A * World.

Definition MW_ret {World A} (a : A) : MW World A := fun w => (Ok a, w).

Definition MW_bind {World A B} (m : MW World A) (k : A → MW World B)
  : MW World B :=
  fun w =>
    match m w with
    | (Ok a, w) => k a w
    | (Panic e, w) => (Panic e, w)
    end.

Definition MW_lift {World A} (r : result A) : MW World A := fun w => (r, w).

Definition MW_mret {World} : MRet (MW World) := @MW_ret World.
Definition MW_mbind {World} : MBind (MW World) := fun _ _ k m => MW_bind m k.

(** The [Sqlizer] interface is open: [Column], [JoinClause], [Where] and
    [Having] take any implementation, and [part.ToSql] hands the call on
    to it. The render of an implementation from outside the sources may
    read and change a state: a counter, a clock, the order in which the
    runtime walks a map. [fixedW] is a fragment of the kinds modelled by
    [Sqlizer], [partW] is [*part] around another fragment, and [foreignW]
    is any other implementation, given by what its [ToSql] does on the
    state. *)
Inductive SqlizerW (World : Type) : Type :=
  | fixedW (f : Sqlizer)
  | partW (pred : SqlizerW World) (args : list value)
  | foreignW (run : World → result (string * list value) * World).
Arguments fixedW {World} f.
Arguments partW {World} pred args.
Arguments foreignW {World} run.

(** [selectData] with fragments of this kind in its fragment slots. *)
Record selectDataW (World : Type) : Type := mkSelectDataW
  { selW_PlaceholderFormat : option PlaceholderFormat;
    selW_Prefixes : exprs;
    selW_Options : list string;
    selW_Columns : list (SqlizerW World);
    selW_From : option (SqlizerW World);
    selW_Joins : list (SqlizerW World);
    selW_WhereParts : list (SqlizerW World);
    selW_GroupBys : list string;
    selW_HavingParts : list (SqlizerW World);
    selW_OrderBys : list string;
    selW_Limit : string;
    selW_Offset : string;
    selW_Suffixes : exprs }.
Arguments mkSelectDataW {World}.
Arguments selW_PlaceholderFormat {World} _.
Arguments selW_Prefixes {World} _.
Arguments selW_Options {World} _.
Arguments selW_Columns {World} _.
Arguments selW_From {World} _.
Arguments selW_Joins {World} _.
Arguments selW_WhereParts {World} _.
Arguments selW_GroupBys {World} _.
Arguments selW_HavingParts {World} _.
Arguments selW_OrderBys {World} _.
Arguments selW_Limit {World} _.
Arguments selW_Offset {World} _.
Arguments selW_Suffixes {World} _.

Section StatefulFragments.

Context {World : Type}.

#[local] Existing Instance MW_mret.
#[local] Existing Instance MW_mbind.

Variable exprs_AppendToSql :
  exprs → Buffer → string → list value →
  result (Buffer * (list value * option error)).

(** [Sqlizer.ToSql] on these fragments; the [partW] case is the
    [case Sqlizer] of [part.ToSql]. *)
Fixpoint SqlizerW_ToSql (f : SqlizerW World) : MW World (string * list value) :=
  match f with
  | fixedW f => MW_lift (Sqlizer_ToSql f)
  | partW pred _ => SqlizerW_ToSql pred
  | foreignW run => run
  end.

(** The loop of [appendToSql], every [p.ToSql()] a step on the state. *)
Fixpoint appendToSqlW_loop {W} `{Writer W} (length i : Z)
    (parts : list (SqlizerW World)) (w : W) (sep : string) (args : list value)
  : MW World (W * (list value * option error)) :=
  match parts with
  | [] => mret (w, (args, None))
  | p :: parts =>
      '(partSql, partArgs) ← SqlizerW_ToSql p;
      if empty_string partSql then
        appendToSqlW_loop length (i + 1) parts w sep args
      else
        let '(w, err) := io_WriteString w partSql in
        match err with
        | Some e => mret (w, ([], Some e))
        | None =>
            if i <? length - 1 then
              let '(w, err) := io_WriteString w sep in
              match err with
              | Some e => mret (w, ([], Some e))
              | None =>
                  appendToSqlW_loop length (i + 1) parts w sep
                    (args ++ partArgs)
              end
            else
              appendToSqlW_loop length (i + 1) parts w sep (args ++ partArgs)
        end
  end.

(** [appendToSql(parts, w, sep, args)] *)
Definition appendToSqlW {W} `{Writer W} (parts : list (SqlizerW World)) (w : W)
    (sep : string) (args : list value)
  : MW World (W * (list value * option error)) :=
  appendToSqlW_loop (Z.of_nat (List.length parts)) 0 parts w sep args.

(** [args, err = appendToSql(...); if err != nil { panic(err) }] *)
Definition mustW {W} (m : MW World (W * (list value * option error)))
  : MW World (W * list value) :=
  r ← m; MW_lift (must (Ok r)).

(** [selectData.ToSql], every render of a fragment a step on the state.
    The first WHERE part is rendered by the guard and, when the guard
    does not hold, once more by the sequencer. *)
Definition selectDataW_ToSql (d : selectDataW World)
  : MW World (string * list value) :=
  if Z.of_nat (List.length (selW_Columns d)) =? 0
  then MW_lift (Panic err_no_columns) else
  let sql : Buffer := "" in
  let args : list value := [] in
  '(sql, args) ← MW_lift
    (if nonempty (selW_Prefixes d) then
       '(sql, args) ←
         discard_err (exprs_AppendToSql (selW_Prefixes d) sql " " args);
       Ok (Buffer_WriteString sql " ", args)
     else Ok (sql, args));
  let sql := Buffer_WriteString sql "SELECT " in
  let sql :=
    if nonempty (selW_Options d) then
      Buffer_WriteString
        (Buffer_WriteString sql (strings_Join (selW_Options d) " ")) " "
    else sql in
  '(sql, args) ←
    (if nonempty (selW_Columns d) then
       mustW (appendToSqlW (selW_Columns d) sql ", " args)
     else mret (sql, args));
  '(sql, args) ←
    (match selW_From d with
     | Some from =>
         mustW (appendToSqlW [from] (Buffer_WriteString sql " FROM ") "" args)
     | None => mret (sql, args)
     end);
  '(sql, args) ←
    (if nonempty (selW_Joins d) then
       mustW (appendToSqlW (selW_Joins d) (Buffer_WriteString sql " ") " " args)
     else mret (sql, args));
  '(sql, args) ←
    (match selW_WhereParts d with
     | [] => mret (sql, args)
     | first :: _ =>
         '(partSql, _) ← SqlizerW_ToSql first;
         if (Z.of_nat (List.length (selW_WhereParts d)) =? 1)
              && empty_string partSql
         then mret (sql, args)
         else mustW (appendToSqlW (selW_WhereParts d)
                       (Buffer_WriteString sql " WHERE ") " AND " args)
     end);
  let sql :=
    if nonempty (selW_GroupBys d) then
      Buffer_WriteString (Buffer_WriteString sql " GROUP BY ")
        (strings_Join (selW_GroupBys d) ", ")
    else sql in
  '(sql, args) ←
    (if nonempty (selW_HavingParts d) then
       mustW (appendToSqlW (selW_HavingParts d)
                (Buffer_WriteString sql " HAVING ") " AND " args)
     else mret (sql, args));
  let sql :=
    if nonempty (selW_OrderBys d) then
      Buffer_WriteString (Buffer_WriteString sql " ORDER BY ")
        (strings_Join (selW_OrderBys d) ", ")
    else sql in
  let sql :=
    if empty_string (selW_Limit d) then sql
    else Buffer_WriteString (Buffer_WriteString sql " LIMIT ") (selW_Limit d) in
  let sql :=
    if empty_string (selW_Offset d) then sql
    else Buffer_WriteString (Buffer_WriteString sql " OFFSET ")
           (selW_Offset d) in
  '(sql, args) ← MW_lift
    (if nonempty (selW_Suffixes d) then
       discard_err
         (exprs_AppendToSql (selW_Suffixes d) (Buffer_WriteString sql " ")
            " " args)
     else Ok (sql, args));
  MW_lift (replace_placeholders (selW_PlaceholderFormat d) sql args).

(** The fragments of a snapshot, slot by slot. *)
Definition fragmentsW (d : selectDataW World) : list (SqlizerW World) :=
  selW_Columns d ++ option_list (selW_From d) ++ selW_Joins d
    ++ selW_WhereParts d ++ selW_HavingParts d.

(** A computation that gives the same outcome on every state and leaves
    the state as it was. *)
Definition repeatable {A} (m : MW World A) : Prop :=
  ∃ r, ∀ w, m w = (r, w).

(** A fragment whose render is of this kind. *)
Definition repeatableW (f : SqlizerW World) : Prop :=
  repeatable (SqlizerW_ToSql f).


(** A snapshot of fragments of the modelled kinds, in this setting. *)
Definition fixed_selectData (d : selectData) : selectDataW World :=
  mkSelectDataW (sel_PlaceholderFormat d) (sel_Prefixes d) (sel_Options d)
    (fixedW <$> sel_Columns d) (fixedW <$> sel_From d)
    (fixedW <$> sel_Joins d) (fixedW <$> sel_WhereParts d) (sel_GroupBys d)
    (fixedW <$> sel_HavingParts d) (sel_OrderBys d) (sel_Limit d)
    (sel_Offset d) (sel_Suffixes d).

End StatefulFragments.




(** * Properties *)

(** ** Strings and outcomes *)

Lemma string_app_cons (c : Ascii.ascii) (s1 s2 : string) :
  String c s1 +:+ s2 = String c (s1 +:+ s2).
Proof. reflexivity. Qed.

Lemma string_app_nil_l (s : string) : "" +:+ s = s.
Proof. reflexivity. Qed.

Lemma string_app_assoc (s1 s2 s3 : string) :
  (s1 +:+ s2) +:+ s3 = s1 +:+ (s2 +:+ s3).
Proof.
  induction s1 as [|c s1 IH]; [done |].
  by rewrite !string_app_cons, IH.
Qed.

Lemma string_app_nil_r (s : string) : s +:+ "" = s.
Proof.
  induction s as [|c s IH]; [done |].
  by rewrite string_app_cons, IH.
Qed.

Lemma empty_string_true (s : string) : empty_string s = true ↔ s = "".
Proof. destruct s; simpl; split; congruence. Qed.

Lemma nonempty_nil {A} : nonempty (@nil A) = false.
Proof. reflexivity. Qed.

Lemma nonempty_cons {A} (x : A) (xs : list A) : nonempty (x :: xs) = true.
Proof. unfold nonempty. apply Z.ltb_lt. simpl. lia. Qed.

Lemma length_eqb_0 {A} (xs : list A) :
  (Z.of_nat (List.length xs) =? 0) = bool_decide (xs = []).
Proof.
  destruct xs as [|x xs]; simpl List.length.
  - by rewrite bool_decide_eq_true_2.
  - rewrite bool_decide_eq_false_2 by done. apply Z.eqb_neq. lia.
Qed.

(** ** The wrapped predicate (part.go) *)

(** C9. Rendering a wrapped predicate: nil gives empty text and no
    arguments, a string gives itself with the trailing arguments, a
    fragment gives what its own render gives, and every other value makes
    the render panic with the expected-type error instead of being turned
    into text. *)
Theorem C9_part_ToSql_cases (pred : value) (args : list value) :
  (pred = VNil → part_ToSql pred args = Ok ("", [])) ∧
  (∀ s, pred = VString s → part_ToSql pred args = Ok (s, args)) ∧
  (∀ f, pred = VSqlizer f → part_ToSql pred args = Sqlizer_ToSql f) ∧
  (pred ≠ VNil → (∀ s, pred ≠ VString s) → (∀ f, pred ≠ VSqlizer f) →
   part_ToSql pred args =
     Panic ("expected string or Sqlizer, not " +:+ typeName pred)).
Proof.
  unfold part_ToSql. repeat split.
  - by intros ->.
  - by intros s ->.
  - by intros f ->.
  - intros Hnil Hstr Hsql. destruct pred; simpl; try done.
    + by destruct (Hstr s).
    + by destruct (Hsql f).
Qed.

Lemma C9_part_ToSql_witness :
  (VInt 3 ≠ VNil ∧ (∀ s, VInt 3 ≠ VString s) ∧ (∀ f, VInt 3 ≠ VSqlizer f)) ∧
  part_ToSql (VInt 3) [VString "x"] =
    Panic "expected string or Sqlizer, not int".
Proof.
  split; [by repeat split |].
  destruct (C9_part_ToSql_cases (VInt 3) [VString "x"]) as (_ & _ & _ & H).
  by apply H.
Defined.

(** ** The fragment sequencer (part.go) *)

Lemma kept_args_cons (s : string) (a : list value) rs :
  kept_args ((s, a) :: rs) =
    if empty_string s then kept_args rs else a ++ kept_args rs.
Proof.
  unfold kept_args. rewrite filter_cons. simpl.
  destruct (empty_string s); by case_decide.
Qed.

(** What the loop does on a buffer when every child renders. *)
Lemma appendToSql_loop_buffer (n i : Z) parts rs (w : Buffer) sep args :
  renders_to parts rs →
  appendToSql_loop n i parts w sep args =
    Ok (w +:+ written_text n i sep rs, (args ++ kept_args rs, None)).
Proof.
  intros Hrs. revert i w args.
  induction Hrs as [|p [s a] parts rs Hp _ IH]; intros i w args.
  - simpl. unfold kept_args. simpl. by rewrite string_app_nil_r, app_nil_r.
  - simpl. rewrite Hp. simpl. rewrite kept_args_cons.
    destruct (empty_string s) eqn:Hs.
    + by rewrite IH.
    + unfold io_WriteString, Buffer_Writer, Buffer_WriteString.
      destruct (i <? n - 1); rewrite IH;
        by rewrite !string_app_assoc, ?string_app_nil_r, <- ?app_assoc.
Qed.

Lemma appendToSql_buffer parts rs (w : Buffer) sep args :
  renders_to parts rs →
  appendToSql parts w sep args =
    Ok (w +:+ written_text (Z.of_nat (List.length parts)) 0 sep rs,
        (args ++ kept_args rs, None)).
Proof. apply appendToSql_loop_buffer. Qed.

(** A child that panics makes the sequencer panic with the same error. *)
Lemma appendToSql_loop_panic {W} `{Writer W} (n i : Z) parts (w : W) sep args
    p e :
  p ∈ parts → Sqlizer_ToSql p = Panic e →
  (∀ w s, (io_WriteString w s).2 = None) →
  ∃ e', appendToSql_loop n i parts w sep args = Panic e'.
Proof.
  intros Hin Hp Hw. revert i w args.
  induction parts as [|q parts IH]; intros i w args; [by inversion Hin |].
  simpl. destruct (Sqlizer_ToSql q) as [[s a]|e'] eqn:Hq; simpl; [|by eexists].
  assert (p ∈ parts) as Hin'.
  { apply elem_of_cons in Hin as [->|]; [congruence | done]. }
  destruct (empty_string s); [by apply IH |].
  destruct (io_WriteString w s) as [w1 err1] eqn:Hw1.
  pose proof (Hw w s) as E1. rewrite Hw1 in E1. simpl in E1. subst err1.
  destruct (i <? n - 1); [|by apply IH].
  destruct (io_WriteString w1 sep) as [w2 err2] eqn:Hw2.
  pose proof (Hw w1 sep) as E2. rewrite Hw2 in E2. simpl in E2. subst err2.
  by apply IH.
Qed.

(** C5 (amended). When every child renders, the argument list returned by
    the sequencer is the incoming list followed, in child order, by the
    arguments of the children whose rendered text is not empty; the
    arguments of a child with empty text are left out with its text. *)
Theorem C5_sequencer_args_of_nonempty_children
    parts rs (w : Buffer) sep args :
  renders_to parts rs →
  ∃ w', appendToSql parts w sep args = Ok (w', (args ++ kept_args rs, None)).
Proof. intros Hrs. eexists. by apply appendToSql_buffer. Qed.

Lemma C5_sequencer_args_witness :
  renders_to [part (VString "") [VInt 1]; part (VString "x = ?") [VInt 2]]
    [("", [VInt 1]); ("x = ?", [VInt 2])] ∧
  ∃ w',
    appendToSql [part (VString "") [VInt 1]; part (VString "x = ?") [VInt 2]]
      ("" : Buffer) " AND " [VInt 0] =
      Ok (w', ([VInt 0] ++ kept_args [("", [VInt 1]); ("x = ?", [VInt 2])],
               None)).
Proof.
  split; [by repeat constructor |].
  apply (C5_sequencer_args_of_nonempty_children
           [part (VString "") [VInt 1]; part (VString "x = ?") [VInt 2]]
           [("", [VInt 1]); ("x = ?", [VInt 2])]).
  by repeat constructor.
Defined.

(** The wrapped empty string with one trailing argument renders to empty
    text, and the sequencer drops its argument. *)
Lemma C5_counterexample :
  ¬ sequencer_keeps_all_args [part (VString "") [VInt 1]].
Proof.
  intros Hclaim.
  destruct (Hclaim [("", [VInt 1])] "" ", " []) as [w' Hw'];
    [by repeat constructor |].
  vm_compute in Hw'. discriminate Hw'.
Qed.

(** C4. At two children, the first rendering to [a] and the second to
    empty text, the sequencer leaves the separator after [a], where the
    texts joined as the spec words it are [a] alone. *)
Theorem C4_sequencer_trailing_separator :
  renders_to [part (VString "a") []; part (VString "") []]
    [("a", []); ("", [])] ∧
  appendToSql [part (VString "a") []; part (VString "") []] ("" : Buffer)
    " AND " [] = Ok ("a AND ", ([], None)) ∧
  sequence_text " AND " [("a", []); ("", [])] = "a".
Proof. split; [by repeat constructor | split; reflexivity]. Qed.

Lemma strings_Join_cons (e : string) (elems : list string) (sep : string) :
  elems ≠ [] →
  strings_Join (e :: elems) sep = e +:+ sep +:+ strings_Join elems sep.
Proof. by destruct elems. Qed.

Lemma sequence_text_cons (s : string) (a : list value) rs sep :
  sequence_text sep ((s, a) :: rs) =
    if empty_string s then sequence_text sep rs
    else strings_Join
           (s :: filter (fun s => empty_string s = false) (rs.*1)) sep.
Proof.
  unfold sequence_text. rewrite fmap_cons, filter_cons. simpl.
  destruct (empty_string s); by case_decide.
Qed.

(** Where the sequencer and the spec agree: when the last child renders
    to non-empty text, the written text is the non-empty texts with the
    separator between consecutive ones. *)
Lemma written_text_last_nonempty (n i : Z) sep rs (s : string) a :
  empty_string s = false →
  n = i + Z.of_nat (List.length rs) + 1 →
  written_text n i sep (rs ++ [(s, a)]) = sequence_text sep (rs ++ [(s, a)]).
Proof.
  intros Hs. revert i.
  induction rs as [|[s0 a0] rs IH]; intros i Hn.
  - simpl. rewrite sequence_text_cons, Hs.
    replace (i <? n - 1) with false by (symmetry; apply Z.ltb_ge; simpl in Hn; lia).
    by rewrite !string_app_nil_r.
  - simpl. rewrite sequence_text_cons.
    rewrite (IH (i + 1)) by (simpl List.length in Hn; lia).
    destruct (empty_string s0) eqn:Hs0; [done |].
    replace (i <? n - 1) with true
      by (symmetry; apply Z.ltb_lt; simpl List.length in Hn; lia).
    rewrite strings_Join_cons, string_app_assoc; [done |].
    rewrite fmap_app, filter_app. simpl. rewrite filter_cons.
    rewrite decide_True by done. by destruct (filter _ (rs.*1)).
Qed.

Lemma appendToSql_last_nonempty parts rs (s : string) a (w : Buffer) sep args :
  renders_to parts (rs ++ [(s, a)]) →
  empty_string s = false →
  appendToSql parts w sep args =
    Ok (w +:+ sequence_text sep (rs ++ [(s, a)]),
        (args ++ kept_args (rs ++ [(s, a)]), None)).
Proof.
  intros Hrs Hs. rewrite (appendToSql_buffer _ _ _ _ _ Hrs).
  rewrite written_text_last_nonempty; [done.. |].
  apply Forall2_length in Hrs. rewrite Hrs, length_app. simpl. lia.
Qed.

(** ** SELECT (select.go) *)

Lemma result_bind_ext {A B} (r : result A) (k1 k2 : A → result B) :
  (∀ a, k1 a = k2 a) → r ≫= k1 = r ≫= k2.
Proof. intros Hk. destruct r; simpl; [apply Hk | done]. Qed.

Ltac bind_step := apply result_bind_ext; intros [? ?]; simpl.

Section SelectProperties.

Variable exprs_AppendToSql :
  exprs → Buffer → string → list value →
  result (Buffer * (list value * option error)).

(** C6. A SELECT snapshot without result columns does not render: the
    render panics with the no-result-columns error before anything is
    written, and the panic is the outcome of the builder's render call. *)
Theorem C6_select_requires_columns (d : selectData) :
  sel_Columns d = [] →
  selectData_ToSql exprs_AppendToSql d = Panic err_no_columns ∧
  ∀ b σ,
    scan_selectData (builder_props b σ) = Ok d →
    SelectBuilder_ToSql exprs_AppendToSql b σ = (Panic err_no_columns, σ).
Proof.
  intros Hcols.
  assert (selectData_ToSql exprs_AppendToSql d = Panic err_no_columns) as Hd.
  { unfold selectData_ToSql. by rewrite Hcols. }
  split; [done |]. intros b σ Hscan.
  unfold SelectBuilder_ToSql, GetStruct_selectData.
  unfold mbind, M_mbind, M_bind, M_lift. by rewrite Hscan, Hd.
Qed.

(** The guarded path of the WHERE slot. A SELECT whose WHERE slot holds
    exactly one predicate, which renders to empty text, renders as the
    same snapshot with an empty WHERE slot does: neither the keyword nor
    anything else is written for the slot, and the predicate binds no
    argument. *)
Theorem C1_single_empty_where_is_dropped (d : selectData) p a :
  sel_WhereParts d = [p] →
  Sqlizer_ToSql p = Ok ("", a) →
  selectData_ToSql exprs_AppendToSql d =
    selectData_ToSql exprs_AppendToSql (with_WhereParts [] d).
Proof.
  intros Hwhere Hp. destruct d. simpl in Hwhere. subst.
  unfold selectData_ToSql, with_WhereParts. simpl.
  destruct (Z.of_nat (List.length sel_Columns0) =? 0); [done |].
  do 4 bind_step.
  by rewrite Hp.
Qed.

End SelectProperties.

(** The snapshot of the WHERE slot holding a nil and an empty-string
    predicate renders with the keyword and nothing after it. *)
Lemma C1_counterexample :
  ¬ where_keyword_suppressed exprs_AppendToSql_model
      (mkSelectData (Some Question) [] [] [part (VString "a") []] None []
         [part VNil []; part (VString "") []] [] [] [] "" "" []).
Proof.
  intros Hclaim.
  assert (String.index 0 "WHERE" "SELECT a WHERE " = None) as Hidx.
  { apply (Hclaim ltac:(repeat constructor; by eexists) _ []). reflexivity. }
  vm_compute in Hidx. discriminate Hidx.
Qed.

(** C1. At a WHERE slot that holds a nil and an empty-string predicate,
    both rendering to empty text, the SELECT is rendered with the keyword
    and nothing after it; with the empty-string predicate alone in the
    slot the keyword is left out. *)
Theorem C1_where_keyword_after_two_empty_predicates :
  Forall (fun p => ∃ a, Sqlizer_ToSql p = Ok ("", a))
    [part VNil []; part (VString "") []] ∧
  selectData_ToSql exprs_AppendToSql_model
    (mkSelectData (Some Question) [] [] [part (VString "a") []] None []
       [part VNil []; part (VString "") []] [] [] [] "" "" []) =
    Ok ("SELECT a WHERE ", []) ∧
  String.index 0 "WHERE" "SELECT a WHERE " = Some 9%nat ∧
  selectData_ToSql exprs_AppendToSql_model
    (mkSelectData (Some Question) [] [] [part (VString "a") []] None []
       [part (VString "") []] [] [] [] "" "" []) =
    Ok ("SELECT a", []).
Proof.
  split; [repeat constructor; by eexists |].
  repeat split; by vm_compute.
Qed.

Lemma C1_single_empty_where_witness :
  (sel_WhereParts
     (mkSelectData (Some Question) [] [] [part (VString "a") []]
        (Some (part (VString "t") [])) [] [part (VString "") [VInt 1]]
        [] [] [] "" "" []) = [part (VString "") [VInt 1]] ∧
   Sqlizer_ToSql (part (VString "") [VInt 1]) = Ok ("", [VInt 1])) ∧
  selectData_ToSql exprs_AppendToSql_model
    (mkSelectData (Some Question) [] [] [part (VString "a") []]
       (Some (part (VString "t") [])) [] [part (VString "") [VInt 1]]
       [] [] [] "" "" []) =
  selectData_ToSql exprs_AppendToSql_model
    (with_WhereParts []
       (mkSelectData (Some Question) [] [] [part (VString "a") []]
          (Some (part (VString "t") [])) [] [part (VString "") [VInt 1]]
          [] [] [] "" "" [])).
Proof.
  split; [by split |].
  apply (C1_single_empty_where_is_dropped exprs_AppendToSql_model _
           (part (VString "") [VInt 1]) [VInt 1]); reflexivity.
Defined.

Lemma C6_select_requires_columns_witness :
  sel_Columns
    (mkSelectData (Some Question) [] [] [] (Some (part (VString "t") [])) []
       [] [] [] [] "" "" []) = [] ∧
  selectData_ToSql exprs_AppendToSql_model
    (mkSelectData (Some Question) [] [] [] (Some (part (VString "t") [])) []
       [] [] [] [] "" "" []) = Panic err_no_columns.
Proof.
  split; [reflexivity |].
  apply (C6_select_requires_columns exprs_AppendToSql_model
           (mkSelectData (Some Question) [] [] []
              (Some (part (VString "t") [])) [] [] [] [] [] "" "" [])).
  reflexivity.
Defined.

(** ** INSERT (insert.go): the VALUES payload *)

Lemma values_loop_spec (row : list value) (v : nat) (valueStrings : list string)
    (args : list value) :
  List.length valueStrings = (v + List.length row)%nat →
  values_loop v row valueStrings args =
    (take v valueStrings ++ (value_sql <$> row), args ++ row_args row).
Proof.
  revert v valueStrings args.
  induction row as [|val row IH]; intros v vs args Hlen.
  - simpl in *. unfold row_args. simpl.
    rewrite !app_nil_r, take_ge by lia. done.
  - assert (∃ s a, values_loop v (val :: row) vs args =
                     values_loop (S v) row (<[v := s]> vs) (args ++ a)
                   ∧ value_sql val = s ∧ value_args val = a)
      as (s & a & -> & Hs & Ha).
    { destruct val as [| | | | |[]]; simpl; by eauto. }
    simpl in Hlen.
    rewrite IH by (rewrite length_insert; lia).
    assert (is_Some (vs !! v)) as [x Hx] by (apply lookup_lt_is_Some; lia).
    rewrite (take_S_r _ _ s)
      by (rewrite list_lookup_insert_eq; [done | lia]).
    rewrite take_insert_ge by lia.
    unfold row_args. rewrite !fmap_cons. simpl. rewrite Hs, Ha.
    by rewrite <- !app_assoc.
Qed.

Lemma rows_loop_spec (rows : list (list value)) (r : nat)
    (valuesStrings : list string) (args : list value) :
  List.length valuesStrings = (r + List.length rows)%nat →
  rows_loop r rows valuesStrings args =
    (take r valuesStrings ++ (row_sql <$> rows), args ++ rows_args rows).
Proof.
  revert r valuesStrings args.
  induction rows as [|row rows IH]; intros r vss args Hlen.
  - simpl in *. unfold rows_args. simpl.
    rewrite !app_nil_r, take_ge by lia. done.
  - simpl in Hlen. simpl.
    rewrite values_loop_spec by (rewrite length_replicate; lia).
    rewrite IH by (rewrite length_insert; lia).
    rewrite (take_S_r _ _ (row_sql row))
      by (rewrite list_lookup_insert_eq; [done | lia]).
    rewrite take_insert_ge by lia.
    unfold rows_args. rewrite !fmap_cons. simpl.
    by rewrite <- !app_assoc.
Qed.

Lemma appendValuesToSQL_buffer (d : insertData) (w : Buffer) args :
  ins_Values d ≠ [] →
  appendValuesToSQL d w args =
    (w +:+ "VALUES " +:+ strings_Join (row_sql <$> ins_Values d) ",",
     (args ++ rows_args (ins_Values d), None)).
Proof.
  intros Hrows. unfold appendValuesToSQL.
  rewrite length_eqb_0, bool_decide_eq_false_2 by done.
  unfold io_WriteString, Buffer_Writer, Buffer_WriteString.
  rewrite rows_loop_spec by (rewrite length_replicate; lia).
  by rewrite string_app_assoc.
Qed.

(** ** The store *)

Lemma M_bind_lift {A B} (r : result A) (k : A → M B) (σ : store) :
  (M_lift r ≫= k) σ = match r with Ok a => k a σ | Panic e => (Panic e, σ) end.
Proof. by destruct r. Qed.

Lemma M_bind_ret {A B} (a : A) (k : A → M B) (σ : store) :
  (mret a ≫= k) σ = k a σ.
Proof. reflexivity. Qed.

Lemma M_bind_assoc {A B C} (m : M A) (k1 : A → M B) (k2 : B → M C)
    (σ : store) :
  ((m ≫= k1) ≫= k2) σ = (m ≫= (fun a => k1 a ≫= k2)) σ.
Proof.
  unfold mbind, M_mbind, M_bind. by destruct (m σ) as [[a|e] σ1].
Qed.

Ltac M_norm :=
  repeat first
    [ rewrite M_bind_assoc | rewrite M_bind_ret | rewrite M_bind_lift
    | progress simpl ].

Lemma string_length_eqb_0 (s : string) :
  (Z.of_nat (String.length s) =? 0) = empty_string s.
Proof. by destruct s. Qed.

Section InsertProperties.

Variable exprs_AppendToSql :
  exprs → Buffer → string → list value →
  result (Buffer * (list value * option error)).

Lemma SelectBuilder_ToSql_unfold (b : Builder) (σ : store) :
  SelectBuilder_ToSql exprs_AppendToSql b σ =
    (scan_selectData (builder_props b σ)
       ≫= selectData_ToSql exprs_AppendToSql, σ).
Proof.
  unfold SelectBuilder_ToSql, GetStruct_selectData.
  unfold mbind at 1. unfold M_mbind, M_bind, M_lift.
  by destruct (scan_selectData _).
Qed.

Lemma SelectBuilder_ToSql_bind {B} (b : Builder) (k : _ → M B) (σ : store) :
  (SelectBuilder_ToSql exprs_AppendToSql b ≫= k) σ =
    match scan_selectData (builder_props b σ)
            ≫= selectData_ToSql exprs_AppendToSql with
    | Ok r => k r σ
    | Panic e => (Panic e, σ)
    end.
Proof.
  unfold mbind at 1. unfold M_mbind, M_bind.
  rewrite SelectBuilder_ToSql_unfold. by destruct (_ ≫= _).
Qed.

(** Rendering an INSERT reads the store only at its sub-select, and
    leaves it as it was. *)
Lemma insertData_ToSql_store (d : insertData) (σ σ' : store) :
  (∀ sb, ins_Select d = Some sb → builder_props sb σ' = builder_props sb σ) →
  (insertData_ToSql exprs_AppendToSql d σ').1 =
    (insertData_ToSql exprs_AppendToSql d σ).1 ∧
  (insertData_ToSql exprs_AppendToSql d σ).2 = σ.
Proof.
  intros Hsub. unfold insertData_ToSql.
  destruct (Z.of_nat (String.length (ins_Into d)) =? 0); [done |].
  destruct (_ && _); [done |].
  rewrite !M_bind_lift.
  destruct (if nonempty (ins_Prefixes d) then _ else _) as [[sql args]|e];
    [|done].
  destruct (ins_Select d) as [sb|] eqn:Hsel.
  - unfold appendSelectToSQL. rewrite Hsel.
    rewrite !M_bind_assoc, !SelectBuilder_ToSql_bind, (Hsub sb eq_refl).
    destruct (_ ≫= selectData_ToSql _) as [[selectClause sArgs]|e]; [|done].
    unfold io_WriteString, Buffer_Writer. M_norm.
    by destruct (if nonempty (ins_Suffixes d) then _ else _) as [[? ?]|?].
  - destruct (appendValuesToSQL d _ args) as [sql' [args' [err|]]]; [done |].
    M_norm.
    by destruct (if nonempty (ins_Suffixes d) then _ else _) as [[? ?]|?].
Qed.

Lemma M_bind_run {A B} (m : M A) (k : A → M B) (σ σ' : store) (a : A) :
  m σ = (Ok a, σ') → (m ≫= k) σ = k a σ'.
Proof. intros Hm. unfold mbind, M_mbind, M_bind. by rewrite Hm. Qed.

Ltac string_norm :=
  unfold Buffer_WriteString, Buffer_String;
  repeat first
    [ rewrite string_app_assoc | rewrite string_app_nil_l
    | rewrite string_app_nil_r ].

(** C7. An INSERT snapshot without a target table does not render: the
    render panics with the missing-table error. With a table but neither
    rows nor a sub-select it panics with the missing-payload error. In
    both cases the panic comes before anything is written, and the store
    is as before. *)
Theorem C7_insert_requires_target_and_payload (d : insertData) (σ : store) :
  (ins_Into d = "" →
   insertData_ToSql exprs_AppendToSql d σ = (Panic err_no_table, σ)) ∧
  (ins_Into d ≠ "" → ins_Values d = [] → ins_Select d = None →
   insertData_ToSql exprs_AppendToSql d σ = (Panic err_no_payload, σ)) ∧
  (ins_Into d = "" ∨ (ins_Values d = [] ∧ ins_Select d = None) →
   ∃ e, insertData_ToSql exprs_AppendToSql d σ = (Panic e, σ)).
Proof.
  assert (ins_Into d = "" →
          insertData_ToSql exprs_AppendToSql d σ = (Panic err_no_table, σ))
    as Htable.
  { intros Hinto. unfold insertData_ToSql. by rewrite Hinto. }
  assert (ins_Into d ≠ "" → ins_Values d = [] → ins_Select d = None →
          insertData_ToSql exprs_AppendToSql d σ = (Panic err_no_payload, σ))
    as Hpayload.
  { intros Hinto Hvalues Hselect. unfold insertData_ToSql.
    rewrite string_length_eqb_0.
    destruct (empty_string (ins_Into d)) eqn:Hempty;
      [by apply empty_string_true in Hempty |].
    by rewrite Hvalues, Hselect. }
  repeat split; [done.. |].
  intros [Hinto | [Hvalues Hselect]]; [by eauto |].
  destruct (decide (ins_Into d = "")); by eauto.
Qed.

(** C8. An INSERT snapshot with a sub-select renders with the sub-select
    as its payload whatever rows it holds: the result is the one of the
    same snapshot with any other rows, none included; the payload step
    writes the sub-select's SQL and appends the sub-select's arguments;
    and, without prefixes and suffixes, the whole statement is its head
    followed by the sub-select's SQL, with the sub-select's arguments,
    handed to the placeholder rewriter. Holding both is not an error. *)
Theorem C8_insert_select_takes_precedence
    (d : insertData) (sb : Builder) (σ : store) (s : string) (a : list value) :
  ins_Select d = Some sb →
  ins_Into d ≠ "" →
  SelectBuilder_ToSql exprs_AppendToSql sb σ = (Ok (s, a), σ) →
  (∀ rows,
     insertData_ToSql exprs_AppendToSql (with_Values rows d) σ =
       insertData_ToSql exprs_AppendToSql d σ) ∧
  (∀ (w : Buffer) args,
     appendSelectToSQL exprs_AppendToSql d w args σ =
       (Ok (w +:+ s, (args ++ a, None)), σ)) ∧
  (ins_Prefixes d = [] → ins_Suffixes d = [] →
   insertData_ToSql exprs_AppendToSql d σ =
     (replace_placeholders (ins_PlaceholderFormat d) (insert_head d +:+ s) a,
      σ)).
Proof.
  intros Hsel Hinto Hsb. repeat split.
  - intros rows. unfold insertData_ToSql, appendSelectToSQL, with_Values.
    simpl. rewrite Hsel.
    rewrite !bool_decide_eq_false_2, !andb_false_r by done. done.
  - intros w args. unfold appendSelectToSQL. rewrite Hsel.
    by rewrite (M_bind_run _ _ _ _ _ Hsb).
  - intros Hpre Hsuf. unfold insertData_ToSql, appendSelectToSQL.
    rewrite string_length_eqb_0.
    destruct (empty_string (ins_Into d)) eqn:Hempty;
      [by apply empty_string_true in Hempty |].
    rewrite Hsel, Hpre, Hsuf.
    rewrite bool_decide_eq_false_2, andb_false_r by done.
    rewrite nonempty_nil. M_norm.
    rewrite (M_bind_run _ _ _ _ _ Hsb).
    unfold io_WriteString, Buffer_Writer. M_norm.
    unfold M_lift, insert_head. do 2 f_equal.
    destruct (nonempty (ins_Options d)), (nonempty (ins_Columns d));
      by string_norm.
Qed.

(** C10. On the VALUES path every row is written as its values,
    comma-joined, in parentheses, the rows comma-joined after the
    keyword; a value of the expression type is written as its own SQL
    text and binds its own arguments at that position, every other value
    is written as one placeholder and binds itself. The whole INSERT
    without prefixes and suffixes is its head followed by this payload. *)
Theorem C10_insert_values_rendering
    (d : insertData) (w : Buffer) (args : list value) :
  ins_Values d ≠ [] →
  appendValuesToSQL d w args =
    (w +:+ "VALUES " +:+ strings_Join (row_sql <$> ins_Values d) ",",
     (args ++ rows_args (ins_Values d), None)) ∧
  (∀ σ, ins_Select d = None → ins_Into d ≠ "" →
        ins_Prefixes d = [] → ins_Suffixes d = [] →
        insertData_ToSql exprs_AppendToSql d σ =
          (replace_placeholders (ins_PlaceholderFormat d)
             (insert_head d +:+ "VALUES "
                +:+ strings_Join (row_sql <$> ins_Values d) ",")
             (rows_args (ins_Values d)), σ)).
Proof.
  intros Hrows. split; [by apply appendValuesToSQL_buffer |].
  intros σ Hsel Hinto Hpre Hsuf. unfold insertData_ToSql.
  rewrite string_length_eqb_0.
  destruct (empty_string (ins_Into d)) eqn:Hempty;
    [by apply empty_string_true in Hempty |].
  rewrite length_eqb_0, (bool_decide_eq_false_2 (ins_Values d = [])) by done.
  rewrite Hsel, Hpre, Hsuf. M_norm.
  rewrite appendValuesToSQL_buffer by done. M_norm.
  unfold M_lift, insert_head. do 2 f_equal.
  destruct (nonempty (ins_Options d)), (nonempty (ins_Columns d));
    by string_norm.
Qed.

Lemma InsertBuilder_ToSql_unfold (b : Builder) (σ : store) :
  InsertBuilder_ToSql exprs_AppendToSql b σ =
    match scan_insertData (builder_props b σ) with
    | Ok d => insertData_ToSql exprs_AppendToSql d σ
    | Panic e => (Panic e, σ)
    end.
Proof.
  unfold InsertBuilder_ToSql, GetStruct_insertData.
  unfold mbind at 1. unfold M_mbind, M_bind.
  by destruct (scan_insertData _).
Qed.

End InsertProperties.

(** ** Deriving builders *)

(** A new snapshot is allocated away from every builder of the store. *)
Lemma builder_Set_frame (b : Builder) (name : string) (v : field) (σ : store) :
  ∃ b' σ',
    builder_Set b name v σ = (Ok b', σ') ∧ (b' ∉ dom σ) ∧
    ∀ b0, b0 ∈ dom σ →
          σ' !! b0 = σ !! b0 ∧ builder_props b0 σ' = builder_props b0 σ.
Proof.
  unfold builder_Set. eexists _, _. split; [done |].
  pose proof (is_fresh (dom σ)) as Hfresh. split; [done |].
  intros b0 Hb0.
  assert (fresh (dom σ) ≠ b0) as Hne
    by (intros Heq; by rewrite Heq in Hfresh).
  unfold builder_props. by rewrite lookup_insert_ne.
Qed.

(** The sub-select of a scanned insert snapshot is the builder stored
    under the [Select] property. *)
Lemma scan_insertData_Select (m : props) (d : insertData) (sb : Builder) :
  scan_insertData m = Ok d → ins_Select d = Some sb →
  m !! "Select" = Some (FBuilder sb).
Proof.
  unfold scan_insertData. intros Hscan Hsel.
  repeat match type of Hscan with
         | (?r ≫= _) = Ok _ =>
             destruct r eqn:?; simpl in Hscan; [|discriminate Hscan]
         end.
  injection Hscan as <-. simpl in Hsel. subst.
  unfold scan_builder in *.
  destruct (m !! "Select") as [[]|]; congruence.
Qed.

Section BuilderProperties.

Variable exprs_AppendToSql :
  exprs → Buffer → string → list value →
  result (Buffer * (list value * option error)).

Variable newWherePart : value → list value → Sqlizer.

(** Every clause-adding call is one [builder.Set] on the receiver. *)
Lemma derive_is_Set (c : clause_call) (b : Builder) (σ : store) :
  ∃ name v, derive newWherePart c b σ = builder_Set b name v σ.
Proof. destruct c; eexists _, _; reflexivity. Qed.

(** C2. Deriving a builder by a clause-adding call allocates a new
    snapshot and leaves the receiver's alone: after the call the receiver
    references the same snapshot and renders, as a SELECT and as an
    INSERT, to what it rendered to before. *)
Theorem C2_derivation_leaves_receiver_unchanged
    (c : clause_call) (b1 : Builder) (σ : store) :
  b1 ∈ dom σ →
  select_allocated b1 σ →
  ∃ b2 σ',
    derive newWherePart c b1 σ = (Ok b2, σ') ∧
    b2 ≠ b1 ∧
    σ' !! b1 = σ !! b1 ∧
    (SelectBuilder_ToSql exprs_AppendToSql b1 σ').1 =
      (SelectBuilder_ToSql exprs_AppendToSql b1 σ).1 ∧
    (InsertBuilder_ToSql exprs_AppendToSql b1 σ').1 =
      (InsertBuilder_ToSql exprs_AppendToSql b1 σ).1.
Proof.
  intros Hb1 Halloc.
  destruct (derive_is_Set c b1 σ) as (name & v & ->).
  destruct (builder_Set_frame b1 name v σ) as (b2 & σ' & -> & Hb2 & Hframe).
  destruct (Hframe b1 Hb1) as [Hlookup Hprops].
  exists b2, σ'. repeat split; [by intros -> | done | |].
  - by rewrite !SelectBuilder_ToSql_unfold, Hprops.
  - rewrite !InsertBuilder_ToSql_unfold, Hprops.
    destruct (scan_insertData (builder_props b1 σ)) as [d|e] eqn:Hscan;
      [|done].
    apply insertData_ToSql_store. intros sb Hsb.
    apply Hframe, Halloc. by eapply scan_insertData_Select.
Qed.

End BuilderProperties.

(** ** The properties at concrete snapshots *)

Lemma C7_insert_requires_target_and_payload_witness :
  (ins_Into example_insert_no_table = "" ∧
   insertData_ToSql exprs_AppendToSql_model example_insert_no_table ∅ =
     (Panic err_no_table, ∅)) ∧
  ((ins_Into example_insert_no_payload ≠ "" ∧
    ins_Values example_insert_no_payload = [] ∧
    ins_Select example_insert_no_payload = None) ∧
   insertData_ToSql exprs_AppendToSql_model example_insert_no_payload ∅ =
     (Panic err_no_payload, ∅)).
Proof.
  split.
  - split; [reflexivity |].
    by apply (C7_insert_requires_target_and_payload exprs_AppendToSql_model
                example_insert_no_table ∅).
  - split; [by repeat split |].
    by apply (C7_insert_requires_target_and_payload exprs_AppendToSql_model
                example_insert_no_payload ∅).
Defined.

Lemma C8_insert_select_takes_precedence_witness :
  (ins_Select example_insert_both = Some 1%positive ∧
   ins_Values example_insert_both ≠ [] ∧
   ins_Into example_insert_both ≠ "" ∧
   SelectBuilder_ToSql exprs_AppendToSql_model 1%positive example_store =
     (Ok ("SELECT id FROM users WHERE x = ?", [VInt 5]), example_store)) ∧
  insertData_ToSql exprs_AppendToSql_model example_insert_both example_store =
    (Ok ("INSERT INTO t (a) SELECT id FROM users WHERE x = ?", [VInt 5]),
     example_store).
Proof.
  split; [by repeat split; try by vm_compute |].
  destruct (C8_insert_select_takes_precedence exprs_AppendToSql_model
              example_insert_both 1%positive example_store
              "SELECT id FROM users WHERE x = ?" [VInt 5])
    as (_ & _ & Hrender);
    [reflexivity | done | by vm_compute |].
  by rewrite Hrender.
Defined.

Lemma C10_insert_values_rendering_witness :
  ins_Values example_insert_values ≠ [] ∧
  appendValuesToSQL example_insert_values ("INSERT INTO t " : Buffer)
    [VBool true] =
    ("INSERT INTO t VALUES (?,NOW(),?),(?,f(?),?)",
     ([VBool true; VInt 1; VString "x"; VInt 2; VInt 7; VNil], None)).
Proof.
  split; [done |].
  by destruct (C10_insert_values_rendering exprs_AppendToSql_model
                 example_insert_values "INSERT INTO t " [VBool true])
    as [-> _].
Defined.

Lemma C2_derivation_leaves_receiver_unchanged_witness :
  (1%positive ∈ dom example_store ∧ select_allocated 1%positive example_store) ∧
  ∃ b2 σ',
    derive newPart (Select_Where (VString "y = ?") [VInt 6]) 1%positive
      example_store = (Ok b2, σ') ∧
    b2 ≠ 1%positive ∧
    σ' !! 1%positive = example_store !! 1%positive ∧
    (SelectBuilder_ToSql exprs_AppendToSql_model 1%positive σ').1 =
      (SelectBuilder_ToSql exprs_AppendToSql_model 1%positive example_store).1 ∧
    (InsertBuilder_ToSql exprs_AppendToSql_model 1%positive σ').1 =
      (InsertBuilder_ToSql exprs_AppendToSql_model 1%positive example_store).1.
Proof.
  assert (1%positive ∈ dom example_store) as Hdom.
  { apply elem_of_dom. by eexists. }
  assert (select_allocated 1%positive example_store) as Halloc.
  { intros sb Hsb. vm_compute in Hsb. discriminate Hsb. }
  split; [done |].
  by apply (C2_derivation_leaves_receiver_unchanged exprs_AppendToSql_model
              newPart).
Defined.

(** * Further properties *)

(** ** More on the fragment sequencer *)

(** The loop only looks at the distance of the index to the end. *)
Lemma appendToSql_loop_shift {W} `{Writer W} (n i k : Z) parts (w : W) sep args :
  appendToSql_loop (n + k) (i + k) parts w sep args =
    appendToSql_loop n i parts w sep args.
Proof.
  revert i w args. induction parts as [|p parts IH]; intros i w args; [done |].
  simpl. apply result_bind_ext. intros [s a].
  replace (i + k + 1) with (i + 1 + k) by lia.
  replace (i + k <? n + k - 1) with (i <? n - 1)
    by (destruct (Z.ltb_spec i (n - 1)), (Z.ltb_spec (i + k) (n + k - 1)); lia).
  destruct (empty_string s); [apply IH |].
  destruct (io_WriteString w s) as [w1 [e1|]]; [done |].
  destruct (i <? n - 1); [|apply IH].
  destruct (io_WriteString w1 sep) as [w2 [e2|]]; [done | apply IH].
Qed.

Lemma appendToSql_loop_skip_empty {W} `{Writer W} (n i : Z) empties parts
    (w : W) sep args :
  all_render_empty empties →
  appendToSql_loop n i (empties ++ parts) w sep args =
    appendToSql_loop n (i + Z.of_nat (List.length empties)) parts w sep args.
Proof.
  intros Hempty. revert i.
  induction Hempty as [|p empties [a Hp] _ IH]; intros i.
  - simpl. by rewrite Z.add_0_r.
  - simpl app. simpl appendToSql_loop. rewrite Hp. simpl. rewrite IH.
    f_equal. simpl List.length. lia.
Qed.

Lemma appendToSql_skip_leading_empty {W} `{Writer W}
    empties parts (w : W) sep args :
  all_render_empty empties →
  appendToSql (empties ++ parts) w sep args = appendToSql parts w sep args.
Proof.
  intros Hempty.
  unfold appendToSql. rewrite appendToSql_loop_skip_empty by done.
  rewrite length_app, Nat2Z.inj_add, Z.add_0_l.
  rewrite (Z.add_comm (Z.of_nat (List.length empties))).
  rewrite <- (Z.add_0_l (Z.of_nat (List.length empties))) at 2.
  apply appendToSql_loop_shift.
Qed.

(** X1. Children that render to empty text at the front of the slice
    leave no trace: on every writer the sequencer gives what it gives
    without them; a slice of such children alone writes nothing and
    returns the arguments it was given. *)
Theorem X1_sequencer_ignores_leading_empty_children {W} `{Writer W}
    empties parts (w : W) sep args :
  all_render_empty empties →
  appendToSql (empties ++ parts) w sep args = appendToSql parts w sep args ∧
  appendToSql empties w sep args = Ok (w, (args, None)).
Proof.
  intros Hempty. split; [by apply appendToSql_skip_leading_empty |].
  unfold appendToSql.
  rewrite <- (app_nil_r empties) at 2.
  by rewrite appendToSql_loop_skip_empty.
Qed.

Lemma X1_sequencer_ignores_leading_empty_children_witness :
  all_render_empty [part VNil []; part (VString "") [VInt 1]] ∧
  appendToSql
    ([part VNil []; part (VString "") [VInt 1]]
       ++ [part (VString "a = ?") [VInt 2]; part (VString "b") []])
    ("" : Buffer) " AND " [] =
    Ok ("a = ? AND b", ([VInt 2], None)).
Proof.
  assert (all_render_empty [part VNil []; part (VString "") [VInt 1]])
    as Hempty by (repeat constructor; by eexists).
  split; [done |].
  destruct (X1_sequencer_ignores_leading_empty_children
              [part VNil []; part (VString "") [VInt 1]]
              [part (VString "a = ?") [VInt 2]; part (VString "b") []]
              ("" : Buffer) " AND " [] Hempty) as [-> _].
  reflexivity.
Defined.

(** X2. When the last child renders to non-empty text, the sequencer
    writes the non-empty texts with the separator between consecutive
    ones, with no separator in front, behind or doubled, and appends the
    arguments of exactly those children, in child order. *)
Theorem X2_sequencer_joins_when_last_child_is_nonempty
    parts rs (s : string) a (w : Buffer) sep args :
  renders_to parts (rs ++ [(s, a)]) →
  empty_string s = false →
  appendToSql parts w sep args =
    Ok (w +:+ sequence_text sep (rs ++ [(s, a)]),
        (args ++ kept_args (rs ++ [(s, a)]), None)).
Proof. apply appendToSql_last_nonempty. Qed.

Lemma X2_sequencer_joins_witness :
  (renders_to
     [part (VString "a = ?") [VInt 1]; part VNil []; part (VString "b") []]
     ([("a = ?", [VInt 1]); ("", [])] ++ [("b", [])]) ∧
   empty_string "b" = false) ∧
  appendToSql
    [part (VString "a = ?") [VInt 1]; part VNil []; part (VString "b") []]
    ("WHERE " : Buffer) " AND " [VInt 0] =
    Ok ("WHERE a = ? AND b", ([VInt 0; VInt 1], None)).
Proof.
  assert (renders_to
            [part (VString "a = ?") [VInt 1]; part VNil [];
             part (VString "b") []]
            ([("a = ?", [VInt 1]); ("", [])] ++ [("b", [])])) as Hrs
    by (by repeat constructor).
  split; [by split |].
  by rewrite (X2_sequencer_joins_when_last_child_is_nonempty _ _ _ _
                "WHERE " " AND " [VInt 0] Hrs eq_refl).
Defined.

Lemma appendToSql_loop_first_panic (n i : Z) oks rs p rest e (w : Buffer)
    sep args :
  renders_to oks rs → Sqlizer_ToSql p = Panic e →
  appendToSql_loop n i (oks ++ p :: rest) w sep args = Panic e.
Proof.
  intros Hrs Hp. revert i w args.
  induction Hrs as [|q [s a] oks rs Hq _ IH]; intros i w args.
  - simpl. by rewrite Hp.
  - simpl. rewrite Hq. simpl.
    destruct (empty_string s); [apply IH |].
    unfold io_WriteString, Buffer_Writer.
    destruct (i <? n - 1); apply IH.
Qed.

(** Either every child renders, or there is a first one that panics. *)
Lemma renders_or_panics (parts : list Sqlizer) :
  (∃ rs, renders_to parts rs) ∨
  (∃ oks rs p rest e,
     parts = oks ++ p :: rest ∧ renders_to oks rs ∧ Sqlizer_ToSql p = Panic e).
Proof.
  induction parts as [|p parts IH].
  - left. exists []. constructor.
  - destruct (Sqlizer_ToSql p) as [r|e] eqn:Hp.
    + destruct IH as [[rs Hrs] | (oks & rs & q & rest & e & -> & Hrs & Hq)].
      * left. exists (r :: rs). by constructor.
      * right. exists (p :: oks), (r :: rs), q, rest, e.
        repeat split; [|done]. by constructor.
    + right. exists [], [], p, parts, e. repeat split; [constructor | done].
Qed.

(** X3. The first child whose render panics decides the outcome: the
    sequencer panics with that child's error, whatever follows it. On a
    buffer this is the only way it fails: when it returns, it returns no
    error, what was in the buffer and in the argument list before is
    still there, in front, and every child has rendered. *)
Theorem X3_sequencer_fails_only_by_a_child_panic
    (parts : list Sqlizer) (w : Buffer) sep args :
  (∀ oks rs p rest e,
     parts = oks ++ p :: rest → renders_to oks rs →
     Sqlizer_ToSql p = Panic e →
     appendToSql parts w sep args = Panic e) ∧
  (∀ w' args' err,
     appendToSql parts w sep args = Ok (w', (args', err)) →
     err = None ∧
     ∃ rs text, renders_to parts rs ∧
                w' = w +:+ text ∧ args' = args ++ kept_args rs).
Proof.
  split.
  - intros oks rs p rest e -> Hrs Hp. by eapply appendToSql_loop_first_panic.
  - intros w' args' err Hrun.
    destruct (renders_or_panics parts)
      as [[rs Hrs] | (oks & rs & q & rest & e & -> & Hrs & Hq)].
    + rewrite (appendToSql_buffer _ _ _ _ _ Hrs) in Hrun.
      injection Hrun as <- <- <-. split; [done |]. by eexists _, _.
    + unfold appendToSql in Hrun.
      by rewrite (appendToSql_loop_first_panic _ _ _ _ _ _ _ _ _ _ Hrs Hq)
        in Hrun.
Qed.

Lemma X3_sequencer_fails_witness :
  ([part (VString "a") []; part (VInt 3) []; part (VBool true) []] =
     [part (VString "a") []] ++ part (VInt 3) [] :: [part (VBool true) []] ∧
   renders_to [part (VString "a") []] [("a", [])] ∧
   Sqlizer_ToSql (part (VInt 3) []) =
     Panic "expected string or Sqlizer, not int") ∧
  appendToSql [part (VString "a") []; part (VInt 3) []; part (VBool true) []]
    ("" : Buffer) ", " [] = Panic "expected string or Sqlizer, not int".
Proof.
  split; [by repeat split; repeat constructor |].
  destruct (X3_sequencer_fails_only_by_a_child_panic
              [part (VString "a") []; part (VInt 3) []; part (VBool true) []]
              "" ", " []) as [Hpanic _].
  apply (Hpanic [part (VString "a") []] [("a", [])] (part (VInt 3) [])
           [part (VBool true) []]); [done | by repeat constructor | done].
Defined.

Lemma count_placeholders_app (s1 s2 : string) :
  count_placeholders (s1 +:+ s2) =
    (count_placeholders s1 + count_placeholders s2)%nat.
Proof.
  induction s1 as [|c s1 IH]; [done |].
  rewrite string_app_cons. simpl. rewrite IH. lia.
Qed.

Lemma count_placeholders_written (n i : Z) sep rs :
  Forall has_parity rs → count_placeholders sep = 0%nat →
  count_placeholders (written_text n i sep rs) = List.length (kept_args rs).
Proof.
  intros Hrs Hsep. revert i.
  induction Hrs as [|[s a] rs Hr _ IH]; intros i; [done |].
  simpl. rewrite kept_args_cons, count_placeholders_app, IH.
  destruct (empty_string s); [done |].
  rewrite length_app, count_placeholders_app. unfold has_parity in Hr.
  simpl in Hr. rewrite <- Hr.
  destruct (i <? n - 1); simpl; lia.
Qed.

(** X4. The sequencer keeps placeholders and arguments in step: when
    every child binds as many arguments as its text has placeholders, the
    separator has none, and the buffer and argument list it is given
    agree, then the buffer and argument list it returns agree. *)
Theorem X4_sequencer_keeps_placeholder_parity
    parts rs (w : Buffer) sep args :
  renders_to parts rs →
  Forall has_parity rs →
  count_placeholders sep = 0%nat →
  count_placeholders w = List.length args →
  ∃ w' args',
    appendToSql parts w sep args = Ok (w', (args', None)) ∧
    count_placeholders w' = List.length args'.
Proof.
  intros Hrs Hparity Hsep Hw. eexists _, _.
  split; [by apply appendToSql_buffer |].
  rewrite count_placeholders_app, length_app, Hw.
  by rewrite count_placeholders_written.
Qed.

Lemma X4_sequencer_keeps_placeholder_parity_witness :
  (renders_to
     [part (VString "a IN (?,?)") [VInt 1; VInt 2]; part (VString "") [];
      part (VString "b = ?") [VInt 3]]
     [("a IN (?,?)", [VInt 1; VInt 2]); ("", []); ("b = ?", [VInt 3])] ∧
   Forall has_parity
     [("a IN (?,?)", [VInt 1; VInt 2]); ("", []); ("b = ?", [VInt 3])] ∧
   count_placeholders " AND " = 0%nat ∧
   count_placeholders "x = ? AND " = List.length [VInt 0]) ∧
  ∃ w' args',
    appendToSql
      [part (VString "a IN (?,?)") [VInt 1; VInt 2]; part (VString "") [];
       part (VString "b = ?") [VInt 3]]
      ("x = ? AND " : Buffer) " AND " [VInt 0] = Ok (w', (args', None)) ∧
    count_placeholders w' = List.length args'.
Proof.
  assert (renders_to
     [part (VString "a IN (?,?)") [VInt 1; VInt 2]; part (VString "") [];
      part (VString "b = ?") [VInt 3]]
     [("a IN (?,?)", [VInt 1; VInt 2]); ("", []); ("b = ?", [VInt 3])])
    as Hrs by (by repeat constructor).
  assert (Forall has_parity
     [("a IN (?,?)", [VInt 1; VInt 2]); ("", []); ("b = ?", [VInt 3])])
    as Hparity by (by repeat constructor).
  split; [by repeat split |].
  by apply (X4_sequencer_keeps_placeholder_parity _ _ _ _ _ Hrs Hparity).
Defined.

Ltac text_norm :=
  unfold Buffer_WriteString, Buffer_String;
  repeat first
    [ rewrite string_app_assoc | rewrite string_app_nil_l
    | rewrite string_app_nil_r ].

Lemma must_Ok {W} (w : W) (args : list value) :
  must (Ok (w, (args, None))) = Ok (w, args).
Proof. reflexivity. Qed.

Lemma result_bind_Ok {A B} (a : A) (k : A → result B) : Ok a ≫= k = k a.
Proof. reflexivity. Qed.

Lemma nonempty_length {A B} (xs : list A) (ys : list B) :
  List.length xs = List.length ys → nonempty xs = nonempty ys.
Proof. unfold nonempty. by intros ->. Qed.

Lemma slot_text_length (sep : string) parts rs :
  renders_to parts rs →
  written_text (Z.of_nat (List.length parts)) 0 sep rs = slot_text sep rs.
Proof. intros Hrs. unfold slot_text. by rewrite (Forall2_length _ _ _ Hrs). Qed.

(** One keyword-introduced fragment slot of an assembler. *)
Lemma slot_step parts rs (sql : Buffer) (kw sep : string) args :
  renders_to parts rs →
  (if nonempty parts
   then must (appendToSql parts (Buffer_WriteString sql kw) sep args)
   else Ok (sql, args)) =
    Ok (sql +:+ (if nonempty rs then kw +:+ slot_text sep rs else ""),
        args ++ kept_args rs).
Proof.
  intros Hrs. rewrite (nonempty_length parts rs) by by eapply Forall2_length.
  destruct (nonempty rs) eqn:Hne.
  - rewrite (appendToSql_buffer _ _ _ _ _ Hrs), must_Ok, slot_text_length by done.
    unfold Buffer_WriteString. by rewrite string_app_assoc.
  - destruct rs; [|by rewrite nonempty_cons in Hne].
    by rewrite string_app_nil_r, app_nil_r.
Qed.

(** The source slot. *)
Lemma from_step from fr (sql : Buffer) args :
  from_renders_to from fr →
  match from with
  | Some from =>
      must (appendToSql [from] (Buffer_WriteString sql " FROM ") "" args)
  | None => Ok (sql, args)
  end =
    Ok (sql +:+ match fr with Some r => " FROM " +:+ r.1 | None => "" end,
        args ++ kept_args (option_list fr)).
Proof.
  destruct from as [f|], fr as [[s a]|]; simpl; try done.
  - intros Hf.
    rewrite (appendToSql_buffer [f] [(s, a)]) by by repeat constructor.
    rewrite must_Ok. unfold Buffer_WriteString. simpl.
    do 2 f_equal. rewrite string_app_assoc. f_equal.
    destruct (empty_string s) eqn:Hs.
    + apply empty_string_true in Hs. by subst.
    + by rewrite !string_app_nil_r.
  - intros _. by rewrite string_app_nil_r, app_nil_r.
Qed.

(** The filter slot, with its guard. *)
Lemma where_step parts ws (sql : Buffer) args :
  renders_to parts ws →
  match parts with
  | [] => Ok (sql, args)
  | first :: _ =>
      '(partSql, _) ← Sqlizer_ToSql first;
      if (Z.of_nat (List.length parts) =? 1) && empty_string partSql
      then Ok (sql, args)
      else must (appendToSql parts (Buffer_WriteString sql " WHERE ")
                   " AND " args)
  end =
    Ok (sql +:+ (if where_written ws
                 then " WHERE " +:+ slot_text " AND " ws else ""),
        args ++ kept_args ws).
Proof.
  intros Hws. pose proof Hws as Hall.
  destruct Hws as [|p [s a] parts ws Hp Hws].
  - simpl. by rewrite string_app_nil_r, app_nil_r.
  - rewrite Hp, result_bind_Ok. cbv beta iota.
    rewrite (appendToSql_buffer _ _ _ _ _ Hall), must_Ok, slot_text_length
      by done.
    destruct Hws as [|q r parts ws Hq Hws].
    + simpl where_written. change (Z.of_nat (List.length [p]) =? 1) with true.
      destruct (empty_string s) eqn:Hs; simpl.
      * rewrite kept_args_cons, Hs. unfold kept_args. simpl.
        by rewrite string_app_nil_r, app_nil_r.
      * unfold Buffer_WriteString. by rewrite string_app_assoc.
    + replace (Z.of_nat (List.length (p :: q :: parts)) =? 1) with false
        by (symmetry; apply Z.eqb_neq; simpl List.length; lia).
      simpl andb. cbv iota. unfold Buffer_WriteString.
      rewrite string_app_assoc. by destruct r.
Qed.

Lemma count_placeholders_Join (elems : list string) (sep : string) :
  Forall (fun s => count_placeholders s = 0%nat) elems →
  count_placeholders sep = 0%nat →
  count_placeholders (strings_Join elems sep) = 0%nat.
Proof.
  intros Helems Hsep.
  induction Helems as [|e elems He Helems IH]; [done |].
  destruct elems as [|e' elems]; [done |].
  rewrite strings_Join_cons, !count_placeholders_app by done. lia.
Qed.

Lemma count_placeholders_slot (sep : string) rs :
  Forall has_parity rs → count_placeholders sep = 0%nat →
  count_placeholders (slot_text sep rs) = List.length (kept_args rs).
Proof. apply count_placeholders_written. Qed.

Lemma where_not_written ws : where_written ws = false → kept_args ws = [].
Proof.
  destruct ws as [|[s a] [|r ws]]; simpl; [done | | done].
  intros Hs. rewrite kept_args_cons.
  by destruct (empty_string s).
Qed.

Lemma select_text_parity (d : selectData) cs fr js ws hs :
  Forall has_parity cs → (∀ r, fr = Some r → has_parity r) →
  Forall has_parity js → Forall has_parity ws → Forall has_parity hs →
  Forall (fun s => count_placeholders s = 0%nat) (sel_Options d) →
  Forall (fun s => count_placeholders s = 0%nat) (sel_GroupBys d) →
  Forall (fun s => count_placeholders s = 0%nat) (sel_OrderBys d) →
  count_placeholders (sel_Limit d) = 0%nat →
  count_placeholders (sel_Offset d) = 0%nat →
  count_placeholders (select_text d cs fr js ws hs) =
    List.length (select_args cs fr js ws hs).
Proof.
  intros Hcs Hfr Hjs Hws Hhs Hopts Hgb Hob Hlim Hoff.
  unfold select_text, select_args.
  rewrite !count_placeholders_app, !length_app.
  rewrite <- (count_placeholders_slot ", " cs) by done.
  assert (count_placeholders
            (if nonempty (sel_Options d)
             then strings_Join (sel_Options d) " " +:+ " " else "") = 0%nat)
    as ->.
  { destruct (nonempty (sel_Options d)); [|done].
    by rewrite count_placeholders_app, count_placeholders_Join. }
  assert (count_placeholders
            match fr with Some r => " FROM " +:+ r.1 | None => "" end =
          List.length (kept_args (option_list fr))) as ->.
  { destruct fr as [[s a]|]; [|done]. simpl option_list.
    rewrite kept_args_cons, count_placeholders_app. simpl.
    specialize (Hfr _ eq_refl). unfold has_parity in Hfr. simpl in Hfr.
    destruct (empty_string s) eqn:Hs.
    - apply empty_string_true in Hs. by subst.
    - unfold kept_args. simpl. by rewrite app_nil_r. }
  assert (count_placeholders
            (if nonempty js then " " +:+ slot_text " " js else "") =
          List.length (kept_args js)) as ->.
  { destruct js as [|r js]; [done |]. rewrite nonempty_cons.
    by rewrite count_placeholders_app, count_placeholders_slot. }
  assert (count_placeholders
            (if where_written ws
             then " WHERE " +:+ slot_text " AND " ws else "") =
          List.length (kept_args ws)) as ->.
  { destruct (where_written ws) eqn:Hw.
    - by rewrite count_placeholders_app, count_placeholders_slot.
    - by rewrite where_not_written. }
  assert (count_placeholders
            (if nonempty (sel_GroupBys d)
             then " GROUP BY " +:+ strings_Join (sel_GroupBys d) ", "
             else "") = 0%nat) as ->.
  { destruct (nonempty (sel_GroupBys d)); [|done].
    by rewrite count_placeholders_app, count_placeholders_Join. }
  assert (count_placeholders
            (if nonempty hs then " HAVING " +:+ slot_text " AND " hs else "") =
          List.length (kept_args hs)) as ->.
  { destruct hs as [|r hs]; [done |]. rewrite nonempty_cons.
    by rewrite count_placeholders_app, count_placeholders_slot. }
  assert (count_placeholders
            (if nonempty (sel_OrderBys d)
             then " ORDER BY " +:+ strings_Join (sel_OrderBys d) ", "
             else "") = 0%nat) as ->.
  { destruct (nonempty (sel_OrderBys d)); [|done].
    by rewrite count_placeholders_app, count_placeholders_Join. }
  assert (count_placeholders
            (if empty_string (sel_Limit d) then ""
             else " LIMIT " +:+ sel_Limit d) = 0%nat) as ->.
  { destruct (empty_string (sel_Limit d)); [done |].
    by rewrite count_placeholders_app, Hlim. }
  assert (count_placeholders
            (if empty_string (sel_Offset d) then ""
             else " OFFSET " +:+ sel_Offset d) = 0%nat) as ->.
  { destruct (empty_string (sel_Offset d)); [done |].
    by rewrite count_placeholders_app, Hoff. }
  simpl. lia.
Qed.

Section SelectMore.
Variable exprs_AppendToSql :
  exprs → Buffer → string → list value →
  result (Buffer * (list value * option error)).

Lemma selectData_ToSql_slots (d : selectData) cs fr js ws hs :
  sel_Prefixes d = [] → sel_Suffixes d = [] →
  sel_Columns d ≠ [] →
  renders_to (sel_Columns d) cs →
  from_renders_to (sel_From d) fr →
  renders_to (sel_Joins d) js →
  renders_to (sel_WhereParts d) ws →
  renders_to (sel_HavingParts d) hs →
  selectData_ToSql exprs_AppendToSql d =
    replace_placeholders (sel_PlaceholderFormat d)
      (select_text d cs fr js ws hs) (select_args cs fr js ws hs).
Proof.
  intros Hpre Hsuf Hcols Hcs Hfr Hjs Hws Hhs.
  unfold selectData_ToSql.
  rewrite length_eqb_0, bool_decide_eq_false_2 by done.
  rewrite Hpre, Hsuf. rewrite !nonempty_nil. rewrite result_bind_Ok.
  cbv beta iota zeta.
  assert (nonempty (sel_Columns d) = true) as ->
    by (destruct (sel_Columns d); [done | apply nonempty_cons]).
  rewrite (appendToSql_buffer _ _ _ _ _ Hcs), must_Ok, slot_text_length by done.
  rewrite result_bind_Ok. cbv beta iota.
  rewrite (from_step _ _ _ _ Hfr), result_bind_Ok. cbv beta iota.
  rewrite (slot_step _ _ _ _ _ _ Hjs), result_bind_Ok. cbv beta iota.
  rewrite (where_step _ _ _ _ Hws), result_bind_Ok. cbv beta iota.
  rewrite (slot_step _ _ _ _ _ _ Hhs), result_bind_Ok. cbv beta iota.
  rewrite result_bind_Ok. cbv beta iota.
  unfold select_text, select_args. f_equal.
  - destruct (nonempty (sel_Options d)), (nonempty (sel_GroupBys d)),
      (nonempty (sel_OrderBys d)), (empty_string (sel_Limit d)),
      (empty_string (sel_Offset d)); by text_norm.
  - by rewrite app_nil_l, <- !app_assoc.
Qed.

(** X5. A SELECT without prefixes and suffixes whose fragments all render
    is assembled slot by slot in the fixed order: keyword and options,
    columns, FROM, joins, WHERE, GROUP BY, HAVING, ORDER BY, LIMIT,
    OFFSET. Each fragment slot contributes what the sequencer writes for
    it, and the arguments are those of the columns, the source, the
    joins, the filters and the post-filters, in this order. The result
    is handed to the placeholder rewriter; nothing else can fail. *)
Theorem X5_select_is_assembled_in_slot_order (d : selectData) cs fr js ws hs :
  sel_Prefixes d = [] → sel_Suffixes d = [] →
  sel_Columns d ≠ [] →
  renders_to (sel_Columns d) cs →
  from_renders_to (sel_From d) fr →
  renders_to (sel_Joins d) js →
  renders_to (sel_WhereParts d) ws →
  renders_to (sel_HavingParts d) hs →
  selectData_ToSql exprs_AppendToSql d =
    replace_placeholders (sel_PlaceholderFormat d)
      (select_text d cs fr js ws hs) (select_args cs fr js ws hs).
Proof. apply selectData_ToSql_slots. Qed.

(** X6. The blank predicate that [Condition] puts in front of the WHERE
    slot changes nothing once a predicate with non-empty text follows it:
    the SELECT renders as it does without the blank. *)
Theorem X6_leading_blank_predicate_is_dropped
    (d : selectData) blank a0 p (s : string) a ps :
  Sqlizer_ToSql blank = Ok ("", a0) →
  sel_WhereParts d = p :: ps →
  Sqlizer_ToSql p = Ok (s, a) →
  empty_string s = false →
  selectData_ToSql exprs_AppendToSql (with_WhereParts (blank :: p :: ps) d) =
    selectData_ToSql exprs_AppendToSql d.
Proof.
  intros Hblank Hwhere Hp Hs.
  destruct d as [f pre opts cols from joins wh gb hv ob lim off suf].
  simpl in Hwhere. subst.
  unfold selectData_ToSql, with_WhereParts.
  cbn [sel_PlaceholderFormat sel_Prefixes sel_Options sel_Columns sel_From
       sel_Joins sel_WhereParts sel_GroupBys sel_HavingParts sel_OrderBys
       sel_Limit sel_Offset sel_Suffixes].
  destruct (Z.of_nat (List.length cols) =? 0); [done |].
  do 4 (apply result_bind_ext; intros [? ?]).
  rewrite Hblank, Hp, !result_bind_Ok. cbv beta iota. rewrite Hs.
  rewrite andb_false_r.
  replace (Z.of_nat (List.length (blank :: p :: ps)) =? 1) with false
    by (symmetry; apply Z.eqb_neq; simpl List.length; lia).
  simpl andb. cbv iota.
  rewrite (appendToSql_skip_leading_empty [blank] (p :: ps));
    [done | repeat constructor; by eexists].
Qed.

(** X7. A fragment of the column list whose render panics makes the
    render of the SELECT panic with the same error; this is how a column
    wrapped around a value of a wrong type surfaces. *)
Theorem X7_select_surfaces_a_column_panic
    (d : selectData) oks rs p rest e :
  sel_Prefixes d = [] →
  sel_Columns d = oks ++ p :: rest →
  renders_to oks rs →
  Sqlizer_ToSql p = Panic e →
  selectData_ToSql exprs_AppendToSql d = Panic e.
Proof.
  intros Hpre Hcols Hoks Hp. unfold selectData_ToSql.
  rewrite length_eqb_0, bool_decide_eq_false_2
    by (rewrite Hcols; by destruct oks).
  rewrite Hpre. change (nonempty (@nil (string * list value))) with false.
  cbv beta iota zeta. rewrite result_bind_Ok. cbv beta iota.
  assert (nonempty (sel_Columns d) = true) as ->
    by (rewrite Hcols; destruct oks; apply nonempty_cons).
  unfold appendToSql. rewrite Hcols.
  by rewrite (appendToSql_loop_first_panic _ _ _ _ _ _ _ _ _ _ Hoks Hp).
Qed.

(** X8. The SELECT assembler keeps placeholders and arguments in step.
    When every fragment binds as many arguments as its text has
    placeholders and the plain-text slots (options, GROUP BY, ORDER BY,
    LIMIT, OFFSET) have none, the text handed to the placeholder rewriter
    has as many placeholders as there are arguments. A lone WHERE
    predicate with empty text is dropped with its arguments. *)
Theorem X8_select_keeps_placeholder_parity (d : selectData) cs fr js ws hs :
  sel_Prefixes d = [] → sel_Suffixes d = [] →
  sel_Columns d ≠ [] →
  renders_to (sel_Columns d) cs →
  from_renders_to (sel_From d) fr →
  renders_to (sel_Joins d) js →
  renders_to (sel_WhereParts d) ws →
  renders_to (sel_HavingParts d) hs →
  Forall has_parity cs → (∀ r, fr = Some r → has_parity r) →
  Forall has_parity js → Forall has_parity ws → Forall has_parity hs →
  Forall (fun s => count_placeholders s = 0%nat) (sel_Options d) →
  Forall (fun s => count_placeholders s = 0%nat) (sel_GroupBys d) →
  Forall (fun s => count_placeholders s = 0%nat) (sel_OrderBys d) →
  count_placeholders (sel_Limit d) = 0%nat →
  count_placeholders (sel_Offset d) = 0%nat →
  ∃ text args,
    selectData_ToSql exprs_AppendToSql d =
      replace_placeholders (sel_PlaceholderFormat d) text args ∧
    count_placeholders text = List.length args.
Proof.
  intros. eexists _, _. split; [by apply selectData_ToSql_slots |].
  by apply select_text_parity.
Qed.

End SelectMore.

(** ** More on INSERT *)

Lemma plain_value_sql (val : value) :
  plain_value val → value_sql val = "?" ∧ value_args val = [val].
Proof. unfold plain_value. by destruct val as [| | | | |[]]. Qed.

Lemma plain_row_sql (row : list value) :
  Forall plain_value row →
  row_sql row = placeholders_row (List.length row) ∧ row_args row = row.
Proof.
  intros Hrow. unfold row_sql, placeholders_row, row_args.
  assert (value_sql <$> row = replicate (List.length row) "?" ∧
          concat (value_args <$> row) = row) as [Hsql Hargs].
  { induction Hrow as [|val row Hval _ [IH1 IH2]]; [done |].
    destruct (plain_value_sql val Hval) as [Hs Ha].
    rewrite !fmap_cons. simpl. by rewrite Hs, Ha, IH1, IH2. }
  by rewrite Hsql, Hargs.
Qed.

(** X9. Rows of plain values are written as rows of placeholders, one per
    value, and bound in row order and, inside a row, in position order:
    the returned arguments are the incoming ones followed by the rows'
    values, flattened. *)
Theorem X9_plain_rows_bind_every_value_in_order
    (d : insertData) (w : Buffer) (args : list value) :
  ins_Values d ≠ [] →
  Forall (Forall plain_value) (ins_Values d) →
  appendValuesToSQL d w args =
    (w +:+ "VALUES "
       +:+ strings_Join
             ((fun row => placeholders_row (List.length row)) <$> ins_Values d)
             ",",
     (args ++ concat (ins_Values d), None)).
Proof.
  intros Hne Hplain. rewrite appendValuesToSQL_buffer by done.
  assert (row_sql <$> ins_Values d =
            (fun row => placeholders_row (List.length row)) <$> ins_Values d ∧
          rows_args (ins_Values d) = concat (ins_Values d)) as [Hsql Hargs].
  { unfold rows_args. clear Hne. revert Hplain.
    generalize (ins_Values d) as rows. intros rows Hplain.
    induction Hplain as [|row rows Hrow _ [IH1 IH2]]; [done |].
    destruct (plain_row_sql row Hrow) as [Hs Ha].
    rewrite !fmap_cons. simpl. by rewrite Hs, Ha, IH1, IH2. }
  by rewrite Hsql, Hargs.
Qed.

Lemma count_placeholders_Join_map {A} (f : A → string) (g : A → list value)
    (l : list A) (sep : string) :
  count_placeholders sep = 0%nat →
  Forall (fun x => count_placeholders (f x) = List.length (g x)) l →
  count_placeholders (strings_Join (f <$> l) sep) =
    List.length (concat (g <$> l)).
Proof.
  intros Hsep Hl. induction Hl as [|x l Hx Hl IH]; [done |].
  rewrite !fmap_cons. simpl concat. rewrite length_app, <- IH, <- Hx.
  destruct l as [|y l]; [simpl; lia |].
  rewrite fmap_cons, strings_Join_cons, !count_placeholders_app by done.
  lia.
Qed.

(** X10. The VALUES payload keeps placeholders and arguments in step:
    when every value of the expression type binds as many arguments as
    its text has placeholders, and the buffer and argument list given
    agree, the buffer and argument list returned agree. *)
Theorem X10_values_keep_placeholder_parity
    (d : insertData) (w : Buffer) (args : list value) :
  ins_Values d ≠ [] →
  Forall (Forall value_has_parity) (ins_Values d) →
  count_placeholders w = List.length args →
  count_placeholders (appendValuesToSQL d w args).1 =
    List.length (appendValuesToSQL d w args).2.1.
Proof.
  intros Hne Hparity Hw. rewrite appendValuesToSQL_buffer by done. simpl.
  rewrite !count_placeholders_app, length_app, Hw. simpl.
  f_equal. unfold rows_args.
  apply count_placeholders_Join_map; [done |].
  eapply Forall_impl; [exact Hparity |]. intros row Hrow.
  unfold row_sql, row_args.
  rewrite !count_placeholders_app. simpl.
  rewrite (count_placeholders_Join_map value_sql value_args); [lia | done |].
  exact Hrow.
Qed.

Section InsertMore.

Variable exprs_AppendToSql :
  exprs → Buffer → string → list value →
  result (Buffer * (list value * option error)).

(** X11. An INSERT render that returns has a table and a payload, and
    what it returns is what the placeholder rewriter made of the
    assembled text: the bare [return] after a failed [appendValuesToSQL],
    which would give empty SQL without any error, is never reached. The
    store is as before. *)
Theorem X11_insert_returns_only_rewritten_sql
    (d : insertData) (σ σ' : store) (sql : string) (args : list value) :
  insertData_ToSql exprs_AppendToSql d σ = (Ok (sql, args), σ') →
  ins_Into d ≠ "" ∧
  (ins_Values d ≠ [] ∨ ins_Select d ≠ None) ∧
  (∃ f text,
     ins_PlaceholderFormat d = Some f ∧
     ReplacePlaceholders f text = (sql, None)) ∧
  σ' = σ.
Proof.
  intros Hrun.
  destruct (insertData_ToSql_store exprs_AppendToSql d σ σ) as [_ Hσ]; [done |].
  rewrite Hrun in Hσ. simpl in Hσ. subst σ'.
  assert (∀ buf a,
            replace_placeholders (ins_PlaceholderFormat d) buf a =
              Ok (sql, args) →
            ∃ f text, ins_PlaceholderFormat d = Some f ∧
                      ReplacePlaceholders f text = (sql, None)) as Hrewrite.
  { intros buf a. unfold replace_placeholders.
    destruct (ins_PlaceholderFormat d) as [f|]; [|done].
    destruct (ReplacePlaceholders f (Buffer_String buf)) as [out [err|]] eqn:Hf;
      [done |].
    intros [= <- <-]. by eexists _, _. }
  unfold insertData_ToSql in Hrun. rewrite string_length_eqb_0 in Hrun.
  destruct (empty_string (ins_Into d)) eqn:Hinto; [done |].
  rewrite length_eqb_0 in Hrun.
  destruct (bool_decide (ins_Values d = []) && bool_decide (ins_Select d = None))
    eqn:Hguard; [done |].
  assert (ins_Into d ≠ "") as Hne
    by (intros Heq; by rewrite Heq in Hinto).
  assert (ins_Values d ≠ [] ∨ ins_Select d ≠ None) as Hpayload.
  { apply andb_false_iff in Hguard as [H|H]; apply bool_decide_eq_false in H;
      [by left | by right]. }
  repeat split; [done.. |].
  rewrite M_bind_lift in Hrun.
  destruct (if nonempty (ins_Prefixes d) then _ else _) as [[buf a]|e];
    [|done].
  destruct (ins_Select d) as [sb|] eqn:Hsel.
  - unfold appendSelectToSQL in Hrun. rewrite Hsel in Hrun.
    rewrite !M_bind_assoc, SelectBuilder_ToSql_bind in Hrun.
    destruct (_ ≫= selectData_ToSql _) as [[selectClause sArgs]|e]; [|done].
    unfold io_WriteString, Buffer_Writer in Hrun.
    repeat first
      [ rewrite M_bind_assoc in Hrun | rewrite M_bind_ret in Hrun
      | rewrite M_bind_lift in Hrun | progress simpl in Hrun ].
    destruct (if nonempty (ins_Suffixes d) then _ else _) as [[buf' a']|e];
      [|done].
    unfold M_lift in Hrun. injection Hrun as Hrun. by eapply Hrewrite.
  - destruct Hpayload as [Hvalues|]; [|done].
    rewrite appendValuesToSQL_buffer in Hrun by done.
    repeat first
      [ rewrite M_bind_assoc in Hrun | rewrite M_bind_ret in Hrun
      | rewrite M_bind_lift in Hrun | progress simpl in Hrun ].
    destruct (if nonempty (ins_Suffixes d) then _ else _) as [[buf' a']|e];
      [|done].
    unfold M_lift in Hrun. injection Hrun as Hrun. by eapply Hrewrite.
Qed.

(** X12. An INSERT whose sub-select does not render does not render
    either: the sub-select's panic is the panic of the INSERT, whatever
    rows the snapshot holds. *)
Theorem X12_insert_surfaces_the_sub_select_panic
    (d : insertData) (sb : Builder) (σ : store) (e : error) :
  ins_Into d ≠ "" →
  ins_Prefixes d = [] →
  ins_Select d = Some sb →
  SelectBuilder_ToSql exprs_AppendToSql sb σ = (Panic e, σ) →
  insertData_ToSql exprs_AppendToSql d σ = (Panic e, σ).
Proof.
  intros Hinto Hpre Hsel Hsb. unfold insertData_ToSql, appendSelectToSQL.
  rewrite string_length_eqb_0.
  destruct (empty_string (ins_Into d)) eqn:Hempty;
    [by apply empty_string_true in Hempty |].
  rewrite Hsel, Hpre. rewrite bool_decide_eq_false_2, andb_false_r by done.
  change (nonempty (@nil (string * list value))) with false.
  M_norm. unfold mbind, M_mbind, M_bind. by rewrite Hsb.
Qed.

End InsertMore.

(** ** Snapshots of derived builders *)

Lemma builder_Set_props (b : Builder) (name : string) (v : field) (σ : store) :
  ∃ b2 σ',
    builder_Set b name v σ = (Ok b2, σ') ∧
    builder_props b2 σ' = <[name := v]> (builder_props b σ).
Proof.
  unfold builder_Set. eexists _, _. split; [done |].
  unfold builder_props at 1. by rewrite lookup_insert_eq.
Qed.

Lemma builder_Extend_props (b : Builder) (name : string) (vs : list value)
    (σ : store) :
  ∃ b2 σ',
    builder_Extend b name vs σ = (Ok b2, σ') ∧
    builder_props b2 σ' =
      <[name := FList (match builder_props b σ !! name with
                       | Some (FList l) => l
                       | _ => []
                       end ++ vs)]> (builder_props b σ).
Proof. unfold builder_Extend. apply builder_Set_props. Qed.

(** Scanning a field other than the one that was stored. *)
Lemma scan_list_insert_ne {A} (conv : value → option A) (m : props)
    (name name' : string) (v : field) :
  name ≠ name' →
  scan_list conv (<[name := v]> m) name' = scan_list conv m name'.
Proof. intros. unfold scan_list. by rewrite lookup_insert_ne. Qed.

Lemma scan_string_insert_ne (m : props) (name name' : string) (v : field) :
  name ≠ name' → scan_string (<[name := v]> m) name' = scan_string m name'.
Proof. intros. unfold scan_string. by rewrite lookup_insert_ne. Qed.

Lemma scan_Sqlizer_insert_ne (m : props) (name name' : string) (v : field) :
  name ≠ name' → scan_Sqlizer (<[name := v]> m) name' = scan_Sqlizer m name'.
Proof. intros. unfold scan_Sqlizer. by rewrite lookup_insert_ne. Qed.

Lemma scan_format_insert_ne (m : props) (name name' : string) (v : field) :
  name ≠ name' → scan_format (<[name := v]> m) name' = scan_format m name'.
Proof. intros. unfold scan_format. by rewrite lookup_insert_ne. Qed.

Lemma scan_builder_insert_ne (m : props) (name name' : string) (v : field) :
  name ≠ name' → scan_builder (<[name := v]> m) name' = scan_builder m name'.
Proof. intros. unfold scan_builder. by rewrite lookup_insert_ne. Qed.

Ltac scan_frame :=
  repeat match goal with
    | |- context [scan_list ?c (<[?n := ?v]> ?m) ?n'] =>
        rewrite (scan_list_insert_ne c m n n' v) by done
    | |- context [scan_string (<[?n := ?v]> ?m) ?n'] =>
        rewrite (scan_string_insert_ne m n n' v) by done
    | |- context [scan_Sqlizer (<[?n := ?v]> ?m) ?n'] =>
        rewrite (scan_Sqlizer_insert_ne m n n' v) by done
    | |- context [scan_format (<[?n := ?v]> ?m) ?n'] =>
        rewrite (scan_format_insert_ne m n n' v) by done
    | |- context [scan_builder (<[?n := ?v]> ?m) ?n'] =>
        rewrite (scan_builder_insert_ne m n n' v) by done
    end.

(** Scanning the list field that was extended. *)
Lemma scan_list_extend {A} (conv : value → option A) (m : props)
    (name : string) (vs : list value) (l l' : list A) :
  scan_list conv m name = Ok l →
  mapM conv vs = Some l' →
  scan_list conv
    (<[name := FList (match m !! name with
                      | Some (FList o) => o
                      | _ => []
                      end ++ vs)]> m) name = Ok (l ++ l').
Proof.
  unfold scan_list. intros Hl Hvs. rewrite lookup_insert_eq.
  destruct (m !! name) as [[v|o|f|b]|]; try done.
  - destruct (mapM conv o) as [k|] eqn:Ho; [|done]. injection Hl as <-.
    apply mapM_Some in Ho, Hvs.
    by rewrite (mapM_Some_2 conv (o ++ vs) (k ++ l'))
      by by apply Forall2_app.
  - injection Hl as <-. simpl. by rewrite Hvs.
Qed.

(** The fields of a scanned SELECT snapshot, one by one. *)
Lemma scan_selectData_inv (m : props) (d : selectData) :
  scan_selectData m = Ok d →
  scan_format m "PlaceholderFormat" = Ok (sel_PlaceholderFormat d) ∧
  scan_list as_expr m "Prefixes" = Ok (sel_Prefixes d) ∧
  scan_list as_string m "Options" = Ok (sel_Options d) ∧
  scan_list as_Sqlizer m "Columns" = Ok (sel_Columns d) ∧
  scan_Sqlizer m "From" = Ok (sel_From d) ∧
  scan_list as_Sqlizer m "Joins" = Ok (sel_Joins d) ∧
  scan_list as_Sqlizer m "WhereParts" = Ok (sel_WhereParts d) ∧
  scan_list as_string m "GroupBys" = Ok (sel_GroupBys d) ∧
  scan_list as_Sqlizer m "HavingParts" = Ok (sel_HavingParts d) ∧
  scan_list as_string m "OrderBys" = Ok (sel_OrderBys d) ∧
  scan_string m "Limit" = Ok (sel_Limit d) ∧
  scan_string m "Offset" = Ok (sel_Offset d) ∧
  scan_list as_expr m "Suffixes" = Ok (sel_Suffixes d).
Proof.
  unfold scan_selectData. intros Hscan.
  repeat match type of Hscan with
         | (?r ≫= _) = Ok _ =>
             destruct r eqn:?; simpl in Hscan; [|discriminate Hscan]
         end.
  by injection Hscan as <-.
Qed.

Lemma scan_insertData_inv (m : props) (d : insertData) :
  scan_insertData m = Ok d →
  scan_format m "PlaceholderFormat" = Ok (ins_PlaceholderFormat d) ∧
  scan_list as_expr m "Prefixes" = Ok (ins_Prefixes d) ∧
  scan_list as_string m "Options" = Ok (ins_Options d) ∧
  scan_string m "Into" = Ok (ins_Into d) ∧
  scan_list as_string m "Columns" = Ok (ins_Columns d) ∧
  scan_list as_slice m "Values" = Ok (ins_Values d) ∧
  scan_list as_expr m "Suffixes" = Ok (ins_Suffixes d) ∧
  scan_builder m "Select" = Ok (ins_Select d).
Proof.
  unfold scan_insertData. intros Hscan.
  repeat match type of Hscan with
         | (?r ≫= _) = Ok _ =>
             destruct r eqn:?; simpl in Hscan; [|discriminate Hscan]
         end.
  by injection Hscan as <-.
Qed.

Ltac scan_select_fields Hscan :=
  destruct (scan_selectData_inv _ _ Hscan)
    as (Hf & Hpre & Hopts & Hcols & Hfrom & Hjoins & Hwhere & Hgb & Hhv
        & Hob & Hlim & Hoff & Hsuf).

Ltac scan_insert_fields Hscan :=
  destruct (scan_insertData_inv _ _ Hscan)
    as (Hf & Hpre & Hopts & Hinto & Hcols & Hvals & Hsuf & Hsel).

Lemma mapM_as_Sqlizer (fs : list Sqlizer) :
  mapM as_Sqlizer (VSqlizer <$> fs) = Some fs.
Proof. by apply mapM_fmap_Some. Qed.

Lemma mapM_as_string (ss : list string) :
  mapM as_string (VString <$> ss) = Some ss.
Proof. by apply mapM_fmap_Some. Qed.

Lemma scan_Sqlizer_insert_eq (m : props) (name : string) (f : Sqlizer) :
  scan_Sqlizer (<[name := FValue (VSqlizer f)]> m) name = Ok (Some f).
Proof. unfold scan_Sqlizer. by rewrite lookup_insert_eq. Qed.

Lemma scan_string_insert_eq (m : props) (name s : string) :
  scan_string (<[name := FValue (VString s)]> m) name = Ok s.
Proof. unfold scan_string. by rewrite lookup_insert_eq. Qed.

Lemma scan_format_insert_eq (m : props) (name : string) (f : PlaceholderFormat) :
  scan_format (<[name := FFormat f]> m) name = Ok (Some f).
Proof. unfold scan_format. by rewrite lookup_insert_eq. Qed.

Lemma scan_builder_insert_eq (m : props) (name : string) (b : Builder) :
  scan_builder (<[name := FBuilder b]> m) name = Ok (Some b).
Proof. unfold scan_builder. by rewrite lookup_insert_eq. Qed.

Lemma pretty_N_go_nonempty (x : N) (s : string) :
  s ≠ "" → pretty_N_go x s ≠ "".
Proof.
  revert s. induction (N.lt_wf_0 x) as [x _ IH]; intros s Hs.
  destruct (decide (x = 0)%N) as [->|Hx]; [by rewrite pretty_N_go_0 |].
  rewrite pretty_N_go_step by lia.
  apply IH; [apply N.div_lt; lia | done].
Qed.

Lemma pretty_N_nonempty (x : N) : pretty x ≠ "".
Proof.
  unfold pretty, pretty_N. case_decide; [done |].
  rewrite pretty_N_go_step by lia. by apply pretty_N_go_nonempty.
Qed.

Lemma pretty_Z_nonempty (x : Z) : empty_string (pretty x) = false.
Proof.
  destruct (empty_string (pretty x)) eqn:Hx; [|done].
  apply empty_string_true in Hx. unfold pretty, pretty_Z in Hx.
  destruct x as [|p|p]; [done | by apply pretty_N_nonempty in Hx | done].
Qed.

Lemma renders_to_newPart_strings (names : list string) :
  renders_to ((fun str => newPart (VString str) []) <$> names)
    ((fun str => (str, [])) <$> names).
Proof. induction names as [|s names IH]; by constructor. Qed.

Lemma kept_args_no_args (names : list string) :
  kept_args ((fun str => (str, @nil value)) <$> names) = [].
Proof.
  induction names as [|s names IH]; [done |].
  rewrite fmap_cons, kept_args_cons, IH. by destruct (empty_string s).
Qed.

Lemma written_text_all_nonempty (n i : Z) (sep : string) (names : list string) :
  Forall (fun s => empty_string s = false) names →
  n = i + Z.of_nat (List.length names) →
  written_text n i sep ((fun str => (str, @nil value)) <$> names) =
    strings_Join names sep.
Proof.
  intros Hnames. revert i.
  induction Hnames as [|s names Hs Hnames IH]; intros i Hn; [done |].
  rewrite fmap_cons. simpl written_text. rewrite Hs.
  rewrite (IH (i + 1)) by (simpl List.length in Hn; lia).
  destruct names as [|s' names].
  - replace (i <? n - 1) with false
      by (symmetry; apply Z.ltb_ge; simpl in Hn; lia).
    simpl. by rewrite !string_app_nil_r.
  - replace (i <? n - 1) with true
      by (symmetry; apply Z.ltb_lt; simpl List.length in Hn; lia).
    by rewrite (strings_Join_cons s (s' :: names)), string_app_assoc.
Qed.

Section DerivedSnapshots.

Variable exprs_AppendToSql :
  exprs → Buffer → string → list value →
  result (Buffer * (list value * option error)).

Variable newWherePart : value → list value → Sqlizer.

Lemma SelectBuilder_Where_snapshot
    (b : Builder) (σ : store) (d : selectData) pred args :
  scan_selectData (builder_props b σ) = Ok d →
  ∃ b2 σ',
    SelectBuilder_Where newWherePart b pred args σ = (Ok b2, σ') ∧
    scan_selectData (builder_props b2 σ') =
      Ok (with_WhereParts (sel_WhereParts d ++ [newWherePart pred args]) d).
Proof.
  intros Hscan. scan_select_fields Hscan.
  unfold SelectBuilder_Where, builder_Append.
  destruct (builder_Extend_props b "WhereParts"
              [VSqlizer (newWherePart pred args)] σ)
    as (b2 & σ' & Hrun & Hprops).
  exists b2, σ'. split; [done |].
  rewrite Hprops. unfold scan_selectData. scan_frame.
  rewrite (scan_list_extend as_Sqlizer _ "WhereParts"
             [VSqlizer (newWherePart pred args)] _ [newWherePart pred args]
             Hwhere eq_refl).
  rewrite Hf, Hpre, Hopts, Hcols, Hfrom, Hjoins, Hgb, Hhv, Hob, Hlim, Hoff,
    Hsuf.
  reflexivity.
Qed.

Lemma SelectBuilder_Columns_snapshot
    (b : Builder) (σ : store) (d : selectData) (columns : list string) :
  scan_selectData (builder_props b σ) = Ok d →
  ∃ b2 σ',
    SelectBuilder_Columns b columns σ = (Ok b2, σ') ∧
    scan_selectData (builder_props b2 σ') =
      Ok (with_Columns
            (sel_Columns d
               ++ ((fun str => newPart (VString str) []) <$> columns))
            d).
Proof.
  intros Hscan. scan_select_fields Hscan.
  unfold SelectBuilder_Columns.
  destruct (builder_Extend_props b "Columns"
              ((fun str => VSqlizer (newPart (VString str) [])) <$> columns) σ)
    as (b2 & σ' & Hrun & Hprops).
  exists b2, σ'. split; [done |].
  rewrite Hprops. unfold scan_selectData. scan_frame.
  rewrite (scan_list_extend as_Sqlizer _ "Columns" _ _
             ((fun str => newPart (VString str) []) <$> columns) Hcols)
    by (rewrite <- mapM_as_Sqlizer; f_equal; by rewrite <- list_fmap_compose).
  rewrite Hf, Hpre, Hopts, Hfrom, Hjoins, Hwhere, Hgb, Hhv, Hob, Hlim, Hoff,
    Hsuf.
  reflexivity.
Qed.

Lemma SelectBuilder_From_snapshot
    (b : Builder) (σ : store) (d : selectData) (from : string) :
  scan_selectData (builder_props b σ) = Ok d →
  ∃ b2 σ',
    SelectBuilder_From b from σ = (Ok b2, σ') ∧
    scan_selectData (builder_props b2 σ') =
      Ok (with_From (Some (newPart (VString from) [])) d).
Proof.
  intros Hscan. scan_select_fields Hscan.
  unfold SelectBuilder_From.
  destruct (builder_Set_props b "From"
              (FValue (VSqlizer (newPart (VString from) []))) σ)
    as (b2 & σ' & Hrun & Hprops).
  exists b2, σ'. split; [done |].
  rewrite Hprops. unfold scan_selectData. scan_frame.
  rewrite scan_Sqlizer_insert_eq.
  rewrite Hf, Hpre, Hopts, Hcols, Hjoins, Hwhere, Hgb, Hhv, Hob, Hlim, Hoff,
    Hsuf.
  reflexivity.
Qed.

Lemma SelectBuilder_PlaceholderFormat_snapshot
    (b : Builder) (σ : store) (d : selectData) (f : PlaceholderFormat) :
  scan_selectData (builder_props b σ) = Ok d →
  ∃ b2 σ',
    SelectBuilder_PlaceholderFormat b f σ = (Ok b2, σ') ∧
    scan_selectData (builder_props b2 σ') =
      Ok (with_PlaceholderFormat (Some f) d).
Proof.
  intros Hscan. scan_select_fields Hscan.
  unfold SelectBuilder_PlaceholderFormat.
  destruct (builder_Set_props b "PlaceholderFormat" (FFormat f) σ)
    as (b2 & σ' & Hrun & Hprops).
  exists b2, σ'. split; [done |].
  rewrite Hprops. unfold scan_selectData. scan_frame.
  rewrite scan_format_insert_eq.
  rewrite Hpre, Hopts, Hcols, Hfrom, Hjoins, Hwhere, Hgb, Hhv, Hob, Hlim,
    Hoff, Hsuf.
  reflexivity.
Qed.

Lemma SelectBuilder_Limit_snapshot
    (b : Builder) (σ : store) (d : selectData) (limit : Z) :
  scan_selectData (builder_props b σ) = Ok d →
  ∃ b2 σ',
    SelectBuilder_Limit b limit σ = (Ok b2, σ') ∧
    scan_selectData (builder_props b2 σ') = Ok (with_Limit (pretty limit) d).
Proof.
  intros Hscan. scan_select_fields Hscan.
  unfold SelectBuilder_Limit.
  destruct (builder_Set_props b "Limit" (FValue (VString (pretty limit))) σ)
    as (b2 & σ' & Hrun & Hprops).
  exists b2, σ'. split; [done |].
  rewrite Hprops. unfold scan_selectData. scan_frame.
  rewrite scan_string_insert_eq.
  rewrite Hf, Hpre, Hopts, Hcols, Hfrom, Hjoins, Hwhere, Hgb, Hhv, Hob, Hoff,
    Hsuf.
  reflexivity.
Qed.

Lemma InsertBuilder_Into_snapshot
    (b : Builder) (σ : store) (d : insertData) (into : string) :
  scan_insertData (builder_props b σ) = Ok d →
  ∃ b2 σ',
    InsertBuilder_Into b into σ = (Ok b2, σ') ∧
    scan_insertData (builder_props b2 σ') = Ok (with_Into into d).
Proof.
  intros Hscan. scan_insert_fields Hscan.
  unfold InsertBuilder_Into.
  destruct (builder_Set_props b "Into" (FValue (VString into)) σ)
    as (b2 & σ' & Hrun & Hprops).
  exists b2, σ'. split; [done |].
  rewrite Hprops. unfold scan_insertData. scan_frame.
  rewrite scan_string_insert_eq.
  rewrite Hf, Hpre, Hopts, Hcols, Hvals, Hsuf, Hsel.
  reflexivity.
Qed.

Lemma InsertBuilder_Values_snapshot
    (b : Builder) (σ : store) (d : insertData) (values : list value) :
  scan_insertData (builder_props b σ) = Ok d →
  ∃ b2 σ',
    InsertBuilder_Values b values σ = (Ok b2, σ') ∧
    scan_insertData (builder_props b2 σ') =
      Ok (with_Values (ins_Values d ++ [values]) d).
Proof.
  intros Hscan. scan_insert_fields Hscan.
  unfold InsertBuilder_Values, builder_Append.
  destruct (builder_Extend_props b "Values" [VSlice values] σ)
    as (b2 & σ' & Hrun & Hprops).
  exists b2, σ'. split; [done |].
  rewrite Hprops. unfold scan_insertData. scan_frame.
  rewrite (scan_list_extend as_slice _ "Values" [VSlice values] _ [values]
             Hvals eq_refl).
  rewrite Hf, Hpre, Hopts, Hinto, Hcols, Hsuf, Hsel.
  reflexivity.
Qed.

Lemma InsertBuilder_Columns_snapshot
    (b : Builder) (σ : store) (d : insertData) (columns : list string) :
  scan_insertData (builder_props b σ) = Ok d →
  ∃ b2 σ',
    InsertBuilder_Columns b columns σ = (Ok b2, σ') ∧
    scan_insertData (builder_props b2 σ') =
      Ok (mkInsertData (ins_PlaceholderFormat d) (ins_Prefixes d)
            (ins_Options d) (ins_Into d) (ins_Columns d ++ columns)
            (ins_Values d) (ins_Suffixes d) (ins_Select d)).
Proof.
  intros Hscan. scan_insert_fields Hscan.
  unfold InsertBuilder_Columns.
  destruct (builder_Extend_props b "Columns" (VString <$> columns) σ)
    as (b2 & σ' & Hrun & Hprops).
  exists b2, σ'. split; [done |].
  rewrite Hprops. unfold scan_insertData. scan_frame.
  rewrite (scan_list_extend as_string _ "Columns" _ _ columns Hcols)
    by apply mapM_as_string.
  rewrite Hf, Hpre, Hopts, Hinto, Hvals, Hsuf, Hsel.
  reflexivity.
Qed.

Lemma InsertBuilder_PlaceholderFormat_snapshot
    (b : Builder) (σ : store) (d : insertData) (f : PlaceholderFormat) :
  scan_insertData (builder_props b σ) = Ok d →
  ∃ b2 σ',
    InsertBuilder_PlaceholderFormat b f σ = (Ok b2, σ') ∧
    scan_insertData (builder_props b2 σ') =
      Ok (mkInsertData (Some f) (ins_Prefixes d) (ins_Options d) (ins_Into d)
            (ins_Columns d) (ins_Values d) (ins_Suffixes d) (ins_Select d)).
Proof.
  intros Hscan. scan_insert_fields Hscan.
  unfold InsertBuilder_PlaceholderFormat.
  destruct (builder_Set_props b "PlaceholderFormat" (FFormat f) σ)
    as (b2 & σ' & Hrun & Hprops).
  exists b2, σ'. split; [done |].
  rewrite Hprops. unfold scan_insertData. scan_frame.
  rewrite scan_format_insert_eq.
  rewrite Hpre, Hopts, Hinto, Hcols, Hvals, Hsuf, Hsel.
  reflexivity.
Qed.

Lemma SelectBuilder_ToSql_scanned (b : Builder) (σ : store) (d : selectData) :
  scan_selectData (builder_props b σ) = Ok d →
  SelectBuilder_ToSql exprs_AppendToSql b σ =
    (selectData_ToSql exprs_AppendToSql d, σ).
Proof. intros Hscan. by rewrite SelectBuilder_ToSql_unfold, Hscan. Qed.

(** X13. [Where] adds one predicate, wrapped, at the end of the WHERE
    slot of the new builder and changes no other field: the new builder
    renders as the receiver's snapshot with that predicate appended. *)
Theorem X13_Where_appends_one_predicate
    (b : Builder) (σ : store) (d : selectData) pred args :
  scan_selectData (builder_props b σ) = Ok d →
  ∃ b2 σ',
    SelectBuilder_Where newWherePart b pred args σ = (Ok b2, σ') ∧
    scan_selectData (builder_props b2 σ') =
      Ok (with_WhereParts (sel_WhereParts d ++ [newWherePart pred args]) d) ∧
    SelectBuilder_ToSql exprs_AppendToSql b2 σ' =
      (selectData_ToSql exprs_AppendToSql
         (with_WhereParts (sel_WhereParts d ++ [newWherePart pred args]) d),
       σ').
Proof.
  intros Hscan.
  destruct (SelectBuilder_Where_snapshot b σ d pred args Hscan)
    as (b2 & σ' & Hrun & Hscan').
  exists b2, σ'. repeat split; [done.. |].
  by apply SelectBuilder_ToSql_scanned.
Qed.

(** X14. [Columns] adds the given names behind the columns the receiver
    has, each wrapped without arguments, in the order given, and changes
    no other field. *)
Theorem X14_Columns_extends_in_order
    (b : Builder) (σ : store) (d : selectData) (columns : list string) :
  scan_selectData (builder_props b σ) = Ok d →
  ∃ b2 σ',
    SelectBuilder_Columns b columns σ = (Ok b2, σ') ∧
    scan_selectData (builder_props b2 σ') =
      Ok (with_Columns
            (sel_Columns d
               ++ ((fun str => newPart (VString str) []) <$> columns))
            d) ∧
    SelectBuilder_ToSql exprs_AppendToSql b2 σ' =
      (selectData_ToSql exprs_AppendToSql
         (with_Columns
            (sel_Columns d
               ++ ((fun str => newPart (VString str) []) <$> columns))
            d),
       σ').
Proof.
  intros Hscan.
  destruct (SelectBuilder_Columns_snapshot b σ d columns Hscan)
    as (b2 & σ' & Hrun & Hscan').
  exists b2, σ'. repeat split; [done.. |].
  by apply SelectBuilder_ToSql_scanned.
Qed.

(** X15. [From] replaces the source: whatever source the receiver has,
    the new builder has the given table, wrapped, and every other field
    as in the receiver. *)
Theorem X15_From_replaces_the_source
    (b : Builder) (σ : store) (d : selectData) (from : string) :
  scan_selectData (builder_props b σ) = Ok d →
  ∃ b2 σ',
    SelectBuilder_From b from σ = (Ok b2, σ') ∧
    scan_selectData (builder_props b2 σ') =
      Ok (with_From (Some (newPart (VString from) [])) d) ∧
    SelectBuilder_ToSql exprs_AppendToSql b2 σ' =
      (selectData_ToSql exprs_AppendToSql
         (with_From (Some (newPart (VString from) [])) d), σ').
Proof.
  intros Hscan.
  destruct (SelectBuilder_From_snapshot b σ d from Hscan)
    as (b2 & σ' & Hrun & Hscan').
  exists b2, σ'. repeat split; [done.. |].
  by apply SelectBuilder_ToSql_scanned.
Qed.

Lemma select_text_with_Limit (d : selectData) (limit : string) cs fr js ws hs :
  select_text (with_Limit limit d) cs fr js ws hs =
    select_text_before_limit d cs fr js ws hs
      +:+ (if empty_string limit then "" else " LIMIT " +:+ limit)
      +:+ offset_text d.
Proof.
  unfold select_text, select_text_before_limit, offset_text, with_Limit.
  cbn [sel_Options sel_GroupBys sel_OrderBys sel_Limit sel_Offset].
  by text_norm.
Qed.

(** X16. [Limit] stores the number in decimal, and the text is never
    empty. So the render of the new builder, when the snapshot has
    columns and its fragments render, has the LIMIT clause with that
    number between the ORDER BY and the OFFSET slot, for every number,
    zero and the negative ones included. *)
Theorem X16_Limit_always_sets_a_limit
    (b : Builder) (σ : store) (d : selectData) (limit : Z) cs fr js ws hs :
  scan_selectData (builder_props b σ) = Ok d →
  sel_Prefixes d = [] → sel_Suffixes d = [] →
  sel_Columns d ≠ [] →
  renders_to (sel_Columns d) cs →
  from_renders_to (sel_From d) fr →
  renders_to (sel_Joins d) js →
  renders_to (sel_WhereParts d) ws →
  renders_to (sel_HavingParts d) hs →
  ∃ b2 σ',
    SelectBuilder_Limit b limit σ = (Ok b2, σ') ∧
    scan_selectData (builder_props b2 σ') = Ok (with_Limit (pretty limit) d) ∧
    empty_string (pretty limit) = false ∧
    SelectBuilder_ToSql exprs_AppendToSql b2 σ' =
      (replace_placeholders (sel_PlaceholderFormat d)
         (select_text_before_limit d cs fr js ws hs
            +:+ " LIMIT " +:+ pretty limit +:+ offset_text d)
         (select_args cs fr js ws hs), σ').
Proof.
  intros Hscan Hpre Hsuf Hcols Hcs Hfr Hjs Hws Hhs.
  destruct (SelectBuilder_Limit_snapshot b σ d limit Hscan)
    as (b2 & σ' & Hrun & Hscan').
  exists b2, σ'. repeat split; [done.. | apply pretty_Z_nonempty |].
  rewrite (SelectBuilder_ToSql_scanned _ _ _ Hscan').
  rewrite (selectData_ToSql_slots exprs_AppendToSql _ cs fr js ws hs)
    by done.
  by rewrite select_text_with_Limit, pretty_Z_nonempty.
Qed.

(** X17. [Values] adds one row behind the rows the receiver has and
    changes no other field: rows are inserted in the order of the
    calls. *)
Theorem X17_Values_appends_one_row
    (b : Builder) (σ : store) (d : insertData) (values : list value) :
  scan_insertData (builder_props b σ) = Ok d →
  ∃ b2 σ',
    InsertBuilder_Values b values σ = (Ok b2, σ') ∧
    scan_insertData (builder_props b2 σ') =
      Ok (with_Values (ins_Values d ++ [values]) d).
Proof. apply InsertBuilder_Values_snapshot. Qed.

(** X18. A clause-adding call on any receiver leaves every builder of
    the store alone, not only the receiver: builders derived earlier from
    the same receiver keep their snapshot and their render. *)
Theorem X18_derivation_leaves_every_builder_unchanged
    (c : clause_call) (b1 : Builder) (σ : store) :
  ∃ b2 σ',
    derive newWherePart c b1 σ = (Ok b2, σ') ∧
    ∀ b0, b0 ∈ dom σ →
          b2 ≠ b0 ∧ σ' !! b0 = σ !! b0 ∧
          (SelectBuilder_ToSql exprs_AppendToSql b0 σ').1 =
            (SelectBuilder_ToSql exprs_AppendToSql b0 σ).1.
Proof.
  destruct (derive_is_Set newWherePart c b1 σ) as (name & v & ->).
  destruct (builder_Set_frame b1 name v σ) as (b2 & σ' & -> & Hb2 & Hframe).
  exists b2, σ'. split; [done |]. intros b0 Hb0.
  destruct (Hframe b0 Hb0) as [Hlookup Hprops].
  repeat split; [by intros -> | done |].
  by rewrite !SelectBuilder_ToSql_unfold, Hprops.
Qed.

Lemma insertData_ToSql_values (d : insertData) (σ : store) :
  ins_Values d ≠ [] → ins_Select d = None → ins_Into d ≠ "" →
  ins_Prefixes d = [] → ins_Suffixes d = [] →
  insertData_ToSql exprs_AppendToSql d σ =
    (replace_placeholders (ins_PlaceholderFormat d)
       (insert_head d +:+ "VALUES "
          +:+ strings_Join (row_sql <$> ins_Values d) ",")
       (rows_args (ins_Values d)), σ).
Proof.
  intros Hrows Hsel Hinto Hpre Hsuf. unfold insertData_ToSql.
  rewrite string_length_eqb_0.
  destruct (empty_string (ins_Into d)) eqn:Hempty;
    [by apply empty_string_true in Hempty |].
  rewrite length_eqb_0, (bool_decide_eq_false_2 (ins_Values d = [])) by done.
  rewrite Hsel, Hpre, Hsuf. M_norm.
  rewrite appendValuesToSQL_buffer by done. M_norm.
  unfold M_lift, insert_head. do 2 f_equal.
  destruct (nonempty (ins_Options d)), (nonempty (ins_Columns d));
    by text_norm.
Qed.

(** X19. The chain [Columns(names...)], [From(table)],
    [PlaceholderFormat(f)] on a builder with an empty snapshot renders
    to the keyword, the names comma-joined, and the table, with no
    arguments, when there is at least one name and no name is empty. *)
Theorem X19_select_from_renders_names_and_table
    (b : Builder) (σ : store) (columns : list string) (from : string)
    (f : PlaceholderFormat) :
  builder_props b σ = ∅ →
  columns ≠ [] →
  Forall (fun s => empty_string s = false) columns →
  (select_from_program exprs_AppendToSql b columns from f σ).1 =
    replace_placeholders (Some f)
      ("SELECT " +:+ strings_Join columns ", " +:+ " FROM " +:+ from) [].
Proof.
  intros Hempty Hne Hnames. unfold select_from_program.
  assert (scan_selectData (builder_props b σ) =
            Ok (mkSelectData None [] [] [] None [] [] [] [] [] "" "" []))
    as Hscan0 by (by rewrite Hempty).
  destruct (SelectBuilder_Columns_snapshot b σ _ columns Hscan0)
    as (b1 & σ1 & Hrun1 & Hscan1).
  rewrite (M_bind_run _ _ _ _ _ Hrun1).
  destruct (SelectBuilder_From_snapshot b1 σ1 _ from Hscan1)
    as (b2 & σ2 & Hrun2 & Hscan2).
  rewrite (M_bind_run _ _ _ _ _ Hrun2).
  destruct (SelectBuilder_PlaceholderFormat_snapshot b2 σ2 _ f Hscan2)
    as (b3 & σ3 & Hrun3 & Hscan3).
  rewrite (M_bind_run _ _ _ _ _ Hrun3).
  rewrite (SelectBuilder_ToSql_scanned _ _ _ Hscan3). simpl fst.
  rewrite (selectData_ToSql_slots exprs_AppendToSql _
             ((fun str => (str, [])) <$> columns) (Some (from, [])) [] [] [])
    by (simpl;
        first [ done | by destruct columns | apply renders_to_newPart_strings
              | by constructor ]).
  assert (select_args ((fun str => (str, [])) <$> columns)
            (Some (from, [])) [] [] [] = []) as ->.
  { unfold select_args. rewrite kept_args_no_args. simpl option_list.
    rewrite kept_args_cons. by destruct (empty_string from). }
  match goal with
  | |- replace_placeholders _ ?text _ = _ =>
      assert (text =
                "SELECT " +:+ strings_Join columns ", " +:+ " FROM " +:+ from)
        as ->; [|done]
  end.
  unfold select_text, slot_text. simpl.
  rewrite written_text_all_nonempty by (rewrite ?length_fmap; done || lia).
  by text_norm.
Qed.

(** X20. The chain [Into(table)], [Columns(names...)],
    [Values(values...)], [PlaceholderFormat(f)] on a builder with an
    empty snapshot renders, for plain values and a non-empty table name,
    to the statement with one placeholder per value and the values
    themselves as arguments, in the order given. *)
Theorem X20_insert_values_renders_placeholders_and_values
    (b : Builder) (σ : store) (into : string) (columns : list string)
    (values : list value) (f : PlaceholderFormat) :
  builder_props b σ = ∅ →
  into ≠ "" →
  Forall plain_value values →
  (insert_values_program exprs_AppendToSql b into columns values f σ).1 =
    replace_placeholders (Some f)
      ("INSERT INTO " +:+ into +:+ " "
         +:+ (if nonempty columns
              then "(" +:+ strings_Join columns "," +:+ ") " else "")
         +:+ "VALUES " +:+ placeholders_row (List.length values))
      values.
Proof.
  intros Hempty Hinto Hplain. unfold insert_values_program.
  assert (scan_insertData (builder_props b σ) =
            Ok (mkInsertData None [] [] "" [] [] [] None))
    as Hscan0 by (by rewrite Hempty).
  destruct (InsertBuilder_Into_snapshot b σ _ into Hscan0)
    as (b1 & σ1 & Hrun1 & Hscan1).
  rewrite (M_bind_run _ _ _ _ _ Hrun1).
  destruct (InsertBuilder_Columns_snapshot b1 σ1 _ columns Hscan1)
    as (b2 & σ2 & Hrun2 & Hscan2).
  rewrite (M_bind_run _ _ _ _ _ Hrun2).
  destruct (InsertBuilder_Values_snapshot b2 σ2 _ values Hscan2)
    as (b3 & σ3 & Hrun3 & Hscan3).
  rewrite (M_bind_run _ _ _ _ _ Hrun3).
  destruct (InsertBuilder_PlaceholderFormat_snapshot b3 σ3 _ f Hscan3)
    as (b4 & σ4 & Hrun4 & Hscan4).
  rewrite (M_bind_run _ _ _ _ _ Hrun4).
  rewrite InsertBuilder_ToSql_unfold, Hscan4.
  rewrite insertData_ToSql_values by done. simpl fst.
  unfold insert_head, with_Into, with_Values. simpl.
  destruct (plain_row_sql values Hplain) as [-> Hargs].
  unfold rows_args. simpl. rewrite Hargs, app_nil_r.
  f_equal. by text_norm.
Qed.

End DerivedSnapshots.

(** ** The further properties at concrete snapshots *)

Lemma X5_select_is_assembled_in_slot_order_witness :
  (sel_Prefixes example_select_full = [] ∧
   sel_Suffixes example_select_full = [] ∧
   sel_Columns example_select_full ≠ []) ∧
  selectData_ToSql exprs_AppendToSql_model example_select_full =
    Ok ("SELECT DISTINCT id, IF(a = ?, 1, 0) FROM users JOIN t ON t.k = ? "
          +:+ "WHERE x = ? GROUP BY id HAVING n > ? ORDER BY id DESC "
          +:+ "LIMIT 10 OFFSET 20",
        [VInt 1; VInt 2; VInt 3; VInt 4]).
Proof.
  split; [by repeat split |].
  rewrite (X5_select_is_assembled_in_slot_order exprs_AppendToSql_model
             example_select_full
             [("id", []); ("IF(a = ?, 1, 0)", [VInt 1])]
             (Some ("users", []))
             [("JOIN t ON t.k = ?", [VInt 2])]
             [("", []); ("x = ?", [VInt 3])]
             [("n > ?", [VInt 4])]);
    by repeat constructor.
Defined.

Lemma X6_leading_blank_predicate_is_dropped_witness :
  (Sqlizer_ToSql (part (VString "") []) = Ok ("", []) ∧
   sel_WhereParts example_select = part (VString "x = ?") [VInt 5] :: [] ∧
   Sqlizer_ToSql (part (VString "x = ?") [VInt 5]) = Ok ("x = ?", [VInt 5]) ∧
   empty_string "x = ?" = false) ∧
  selectData_ToSql exprs_AppendToSql_model
    (with_WhereParts
       [part (VString "") []; part (VString "x = ?") [VInt 5]]
       example_select) =
    selectData_ToSql exprs_AppendToSql_model example_select.
Proof.
  split; [by repeat split |].
  by apply (X6_leading_blank_predicate_is_dropped exprs_AppendToSql_model
              example_select (part (VString "") []) []
              (part (VString "x = ?") [VInt 5]) "x = ?" [VInt 5] []).
Defined.

Lemma X7_select_surfaces_a_column_panic_witness :
  (sel_Prefixes (with_Columns [part (VString "id") []; part (VInt 3) []]
                   example_select) = [] ∧
   sel_Columns (with_Columns [part (VString "id") []; part (VInt 3) []]
                  example_select) =
     [part (VString "id") []] ++ part (VInt 3) [] :: [] ∧
   renders_to [part (VString "id") []] [("id", [])] ∧
   Sqlizer_ToSql (part (VInt 3) []) =
     Panic "expected string or Sqlizer, not int") ∧
  selectData_ToSql exprs_AppendToSql_model
    (with_Columns [part (VString "id") []; part (VInt 3) []] example_select) =
    Panic "expected string or Sqlizer, not int".
Proof.
  split; [by repeat split; repeat constructor |].
  apply (X7_select_surfaces_a_column_panic exprs_AppendToSql_model _
           [part (VString "id") []] [("id", [])] (part (VInt 3) []) []);
    by repeat constructor.
Defined.

Lemma X8_select_keeps_placeholder_parity_witness :
  (sel_Prefixes example_select_full = [] ∧
   sel_Suffixes example_select_full = [] ∧
   sel_Columns example_select_full ≠ [] ∧
   Forall has_parity [("id", []); ("IF(a = ?, 1, 0)", [VInt 1])] ∧
   Forall has_parity [("", []); ("x = ?", [VInt 3])] ∧
   count_placeholders (sel_Limit example_select_full) = 0%nat) ∧
  ∃ text args,
    selectData_ToSql exprs_AppendToSql_model example_select_full =
      replace_placeholders (sel_PlaceholderFormat example_select_full)
        text args ∧
    count_placeholders text = List.length args.
Proof.
  split; [by repeat split; repeat constructor |].
  apply (X8_select_keeps_placeholder_parity exprs_AppendToSql_model
           example_select_full
           [("id", []); ("IF(a = ?, 1, 0)", [VInt 1])]
           (Some ("users", []))
           [("JOIN t ON t.k = ?", [VInt 2])]
           [("", []); ("x = ?", [VInt 3])]
           [("n > ?", [VInt 4])]);
    try by repeat constructor.
  by intros r [= <-].
Defined.

Lemma X9_plain_rows_bind_every_value_in_order_witness :
  (ins_Values example_insert_both ≠ [] ∧
   Forall (Forall plain_value) (ins_Values example_insert_both)) ∧
  appendValuesToSQL example_insert_both ("" : Buffer) [] =
    ("VALUES (?)", ([VInt 1], None)).
Proof.
  assert (Forall (Forall plain_value) (ins_Values example_insert_both))
    as Hplain by (by repeat constructor).
  split; [by split |].
  by rewrite (X9_plain_rows_bind_every_value_in_order example_insert_both
                "" [] ltac:(done) Hplain).
Defined.

Lemma X10_values_keep_placeholder_parity_witness :
  (ins_Values example_insert_values ≠ [] ∧
   Forall (Forall value_has_parity) (ins_Values example_insert_values) ∧
   count_placeholders "INSERT INTO t " = List.length (@nil value)) ∧
  count_placeholders
    (appendValuesToSQL example_insert_values ("INSERT INTO t " : Buffer) []).1 =
    List.length
      (appendValuesToSQL example_insert_values ("INSERT INTO t " : Buffer)
         []).2.1.
Proof.
  assert (Forall (Forall value_has_parity) (ins_Values example_insert_values))
    as Hparity by (by repeat constructor).
  split; [by repeat split |].
  by apply (X10_values_keep_placeholder_parity example_insert_values).
Defined.

Lemma X11_insert_returns_only_rewritten_sql_witness :
  insertData_ToSql exprs_AppendToSql_model example_insert_values ∅ =
    (Ok ("INSERT INTO t (a,b,c) VALUES (?,NOW(),?),(?,f(?),?)",
         [VInt 1; VString "x"; VInt 2; VInt 7; VNil]), ∅) ∧
  ins_Into example_insert_values ≠ "" ∧
  (ins_Values example_insert_values ≠ [] ∨
   ins_Select example_insert_values ≠ None) ∧
  (∃ f text,
     ins_PlaceholderFormat example_insert_values = Some f ∧
     ReplacePlaceholders f text =
       ("INSERT INTO t (a,b,c) VALUES (?,NOW(),?),(?,f(?),?)", None)) ∧
  (∅ : store) = ∅.
Proof.
  assert (insertData_ToSql exprs_AppendToSql_model example_insert_values ∅ =
            (Ok ("INSERT INTO t (a,b,c) VALUES (?,NOW(),?),(?,f(?),?)",
                 [VInt 1; VString "x"; VInt 2; VInt 7; VNil]), ∅)) as Hrun
    by (by vm_compute).
  split; [done |].
  exact (X11_insert_returns_only_rewritten_sql exprs_AppendToSql_model
           example_insert_values ∅ ∅ _ _ Hrun).
Defined.

Lemma X12_insert_surfaces_the_sub_select_panic_witness :
  (ins_Into (with_Select (Some 2%positive) example_insert_both) ≠ "" ∧
   ins_Prefixes (with_Select (Some 2%positive) example_insert_both) = [] ∧
   ins_Select (with_Select (Some 2%positive) example_insert_both) =
     Some 2%positive ∧
   SelectBuilder_ToSql exprs_AppendToSql_model 2%positive example_store =
     (Panic err_no_columns, example_store)) ∧
  insertData_ToSql exprs_AppendToSql_model
    (with_Select (Some 2%positive) example_insert_both) example_store =
    (Panic err_no_columns, example_store).
Proof.
  assert (SelectBuilder_ToSql exprs_AppendToSql_model 2%positive example_store =
            (Panic err_no_columns, example_store)) as Hsb by (by vm_compute).
  split; [by repeat split |].
  by apply (X12_insert_surfaces_the_sub_select_panic exprs_AppendToSql_model
              (with_Select (Some 2%positive) example_insert_both)
              2%positive).
Defined.

Lemma X13_Where_appends_one_predicate_witness :
  scan_selectData (builder_props 1%positive example_store) = Ok example_select ∧
  ∃ b2 σ',
    SelectBuilder_Where newPart 1%positive (VString "y = ?") [VInt 6]
      example_store = (Ok b2, σ') ∧
    scan_selectData (builder_props b2 σ') =
      Ok (with_WhereParts
            (sel_WhereParts example_select
               ++ [newPart (VString "y = ?") [VInt 6]]) example_select) ∧
    SelectBuilder_ToSql exprs_AppendToSql_model b2 σ' =
      (selectData_ToSql exprs_AppendToSql_model
         (with_WhereParts
            (sel_WhereParts example_select
               ++ [newPart (VString "y = ?") [VInt 6]]) example_select),
       σ').
Proof.
  split; [by vm_compute |].
  apply (X13_Where_appends_one_predicate exprs_AppendToSql_model newPart).
  by vm_compute.
Defined.

Lemma X14_Columns_extends_in_order_witness :
  scan_selectData (builder_props 1%positive example_store) = Ok example_select ∧
  ∃ b2 σ',
    SelectBuilder_Columns 1%positive ["name"; "age"] example_store =
      (Ok b2, σ') ∧
    scan_selectData (builder_props b2 σ') =
      Ok (with_Columns
            (sel_Columns example_select
               ++ ((fun str => newPart (VString str) []) <$> ["name"; "age"]))
            example_select) ∧
    SelectBuilder_ToSql exprs_AppendToSql_model b2 σ' =
      (selectData_ToSql exprs_AppendToSql_model
         (with_Columns
            (sel_Columns example_select
               ++ ((fun str => newPart (VString str) []) <$> ["name"; "age"]))
            example_select),
       σ').
Proof.
  split; [by vm_compute |].
  apply (X14_Columns_extends_in_order exprs_AppendToSql_model).
  by vm_compute.
Defined.

Lemma X15_From_replaces_the_source_witness :
  scan_selectData (builder_props 1%positive example_store) = Ok example_select ∧
  ∃ b2 σ',
    SelectBuilder_From 1%positive "accounts" example_store = (Ok b2, σ') ∧
    scan_selectData (builder_props b2 σ') =
      Ok (with_From (Some (newPart (VString "accounts") [])) example_select) ∧
    SelectBuilder_ToSql exprs_AppendToSql_model b2 σ' =
      (selectData_ToSql exprs_AppendToSql_model
         (with_From (Some (newPart (VString "accounts") [])) example_select),
       σ').
Proof.
  split; [by vm_compute |].
  apply (X15_From_replaces_the_source exprs_AppendToSql_model).
  by vm_compute.
Defined.

Lemma X16_Limit_always_sets_a_limit_witness :
  (scan_selectData (builder_props 1%positive example_store) =
     Ok example_select ∧
   sel_Prefixes example_select = [] ∧ sel_Suffixes example_select = [] ∧
   sel_Columns example_select ≠ []) ∧
  ∃ b2 σ',
    SelectBuilder_Limit 1%positive 0 example_store = (Ok b2, σ') ∧
    SelectBuilder_ToSql exprs_AppendToSql_model b2 σ' =
      (Ok ("SELECT id FROM users WHERE x = ? LIMIT 0", [VInt 5]), σ').
Proof.
  assert (scan_selectData (builder_props 1%positive example_store) =
            Ok example_select) as Hscan by (by vm_compute).
  split; [by repeat split |].
  destruct (X16_Limit_always_sets_a_limit exprs_AppendToSql_model
              1%positive example_store example_select 0
              [("id", [])] (Some ("users", [])) [] [("x = ?", [VInt 5])] []
              Hscan)
    as (b2 & σ' & Hrun & _ & _ & Hrender); try by repeat constructor.
  exists b2, σ'. split; [done |]. by rewrite Hrender.
Defined.

Lemma X17_Values_appends_one_row_witness :
  scan_insertData (builder_props 2%positive example_store) =
    Ok (mkInsertData None [] [] "" [] [] [] None) ∧
  ∃ b2 σ',
    InsertBuilder_Values 2%positive [VInt 1; VString "x"] example_store =
      (Ok b2, σ') ∧
    scan_insertData (builder_props b2 σ') =
      Ok (with_Values
            (ins_Values (mkInsertData None [] [] "" [] [] [] None)
               ++ [[VInt 1; VString "x"]])
            (mkInsertData None [] [] "" [] [] [] None)).
Proof.
  split; [by vm_compute |].
  apply X17_Values_appends_one_row. by vm_compute.
Defined.

Lemma X18_derivation_leaves_every_builder_unchanged_witness :
  1%positive ∈ dom example_store ∧
  ∃ b2 σ',
    derive newPart (Insert_Into "t") 2%positive example_store = (Ok b2, σ') ∧
    b2 ≠ 1%positive ∧
    σ' !! 1%positive = example_store !! 1%positive ∧
    (SelectBuilder_ToSql exprs_AppendToSql_model 1%positive σ').1 =
      (SelectBuilder_ToSql exprs_AppendToSql_model 1%positive example_store).1.
Proof.
  assert (1%positive ∈ dom example_store) as Hdom
    by (apply elem_of_dom; by eexists).
  split; [done |].
  destruct (X18_derivation_leaves_every_builder_unchanged
              exprs_AppendToSql_model newPart (Insert_Into "t") 2%positive
              example_store) as (b2 & σ' & Hrun & Hframe).
  exists b2, σ'. split; [done |]. by apply Hframe.
Defined.

Lemma X19_select_from_renders_names_and_table_witness :
  (builder_props 2%positive example_store = ∅ ∧
   ["id"; "name"] ≠ [] ∧
   Forall (fun s => empty_string s = false) ["id"; "name"]) ∧
  (select_from_program exprs_AppendToSql_model 2%positive ["id"; "name"]
     "users" Question example_store).1 =
    Ok ("SELECT id, name FROM users", []).
Proof.
  assert (builder_props 2%positive example_store = ∅) as Hempty
    by (by vm_compute).
  split; [by repeat split; repeat constructor |].
  by rewrite (X19_select_from_renders_names_and_table exprs_AppendToSql_model
                2%positive example_store ["id"; "name"] "users" Question)
    by by repeat constructor.
Defined.

Lemma X20_insert_values_renders_placeholders_and_values_witness :
  (builder_props 2%positive example_store = ∅ ∧
   "t" ≠ "" ∧
   Forall plain_value [VInt 1; VString "x"]) ∧
  (insert_values_program exprs_AppendToSql_model 2%positive "t" ["a"; "b"]
     [VInt 1; VString "x"] Question example_store).1 =
    Ok ("INSERT INTO t (a,b) VALUES (?,?)", [VInt 1; VString "x"]).
Proof.
  assert (builder_props 2%positive example_store = ∅) as Hempty
    by (by vm_compute).
  split; [by repeat split; repeat constructor |].
  by rewrite (X20_insert_values_renders_placeholders_and_values
                exprs_AppendToSql_model 2%positive example_store "t"
                ["a"; "b"] [VInt 1; VString "x"] Question)
    by by repeat constructor.
Defined.

(** ** Renders that read a state *)

Section StatefulProperties.

Context {World : Type}.

#[local] Existing Instance MW_mret.
#[local] Existing Instance MW_mbind.

Variable exprs_AppendToSql :
  exprs → Buffer → string → list value →
  result (Buffer * (list value * option error)).


Lemma repeatable_lift {A} (r : result A) :
  repeatable (World := World) (MW_lift r).
Proof. by exists r. Qed.


Lemma fixedW_repeatable (f : Sqlizer) : repeatableW (World := World) (fixedW f).
Proof. apply repeatable_lift. Qed.

Lemma partW_repeatable (pred : SqlizerW World) (args : list value) :
  repeatableW pred → repeatableW (partW pred args).
Proof. done. Qed.




Lemma MW_bind_fixed {A B} (m : MW World A) (k : A → MW World B)
    (r : result A) (w : World) :
  (∀ w, m w = (r, w)) →
  (m ≫= k) w = match r with Ok a => k a w | Panic e => (Panic e, w) end.
Proof.
  intros Hm. unfold mbind, MW_mbind, MW_bind. rewrite Hm. by destruct r.
Qed.

Lemma appendToSqlW_loop_fixed {W} `{Writer W} (n i : Z) (parts : list Sqlizer)
    (w : W) sep args (w0 : World) :
  appendToSqlW_loop n i (fixedW <$> parts) w sep args w0 =
    (appendToSql_loop n i parts w sep args, w0).
Proof.
  revert i w args. induction parts as [|p parts IH]; intros i w args; [done |].
  rewrite fmap_cons. simpl.
  rewrite (MW_bind_fixed _ _ (Sqlizer_ToSql p)) by done.
  destruct (Sqlizer_ToSql p) as [[s a]|e]; simpl; [|done].
  destruct (empty_string s); [apply IH |].
  destruct (io_WriteString w s) as [w1 [e1|]]; [done |].
  destruct (i <? n - 1); [|apply IH].
  destruct (io_WriteString w1 sep) as [w2 [e2|]]; [done | apply IH].
Qed.

Lemma mustW_appendToSqlW_fixed (parts : list Sqlizer) (w : Buffer) sep args
    (w0 : World) :
  mustW (appendToSqlW (fixedW <$> parts) w sep args) w0 =
    (must (appendToSql parts w sep args), w0).
Proof.
  unfold mustW, appendToSqlW, appendToSql. rewrite length_fmap.
  rewrite (MW_bind_fixed _ _ (appendToSql_loop _ 0 parts w sep args))
    by (intros; apply appendToSqlW_loop_fixed).
  by destruct (appendToSql_loop _ _ _ _ _ _) as [[? [? [?|]]]|].
Qed.

Lemma slotW_fixed (parts : list Sqlizer) (buf sql : Buffer) sep args
    (w0 : World) :
  (if nonempty (fixedW (World := World) <$> parts)
   then mustW (appendToSqlW (fixedW <$> parts) buf sep args)
   else mret (sql, args)) w0 =
    (if nonempty parts then must (appendToSql parts buf sep args)
     else Ok (sql, args), w0).
Proof.
  unfold nonempty. rewrite length_fmap.
  destruct (0 <? Z.of_nat (List.length parts));
    [apply mustW_appendToSqlW_fixed | done].
Qed.

Lemma fromW_fixed (from : option Sqlizer) (sql : Buffer) args (w0 : World) :
  match fixedW (World := World) <$> from with
  | Some from =>
      mustW (appendToSqlW [from] (Buffer_WriteString sql " FROM ") "" args)
  | None => mret (sql, args)
  end w0 =
    (match from with
     | Some from =>
         must (appendToSql [from] (Buffer_WriteString sql " FROM ") "" args)
     | None => Ok (sql, args)
     end, w0).
Proof.
  destruct from as [from|]; simpl;
    [apply (mustW_appendToSqlW_fixed [from]) | done].
Qed.

Lemma whereW_fixed (parts : list Sqlizer) (sql : Buffer) args (w0 : World) :
  match fixedW (World := World) <$> parts with
  | [] => mret (sql, args)
  | first :: _ =>
      '(partSql, _) ← SqlizerW_ToSql first;
      if (Z.of_nat (List.length (fixedW (World := World) <$> parts)) =? 1)
           && empty_string partSql
      then mret (sql, args)
      else mustW (appendToSqlW (fixedW <$> parts)
                    (Buffer_WriteString sql " WHERE ") " AND " args)
  end w0 =
    (match parts with
     | [] => Ok (sql, args)
     | first :: _ =>
         '(partSql, _) ← Sqlizer_ToSql first;
         if (Z.of_nat (List.length parts) =? 1) && empty_string partSql
         then Ok (sql, args)
         else must (appendToSql parts (Buffer_WriteString sql " WHERE ")
                      " AND " args)
     end, w0).
Proof.
  rewrite length_fmap. destruct parts as [|first rest]; [done |].
  rewrite fmap_cons. cbv beta iota.
  rewrite (MW_bind_fixed _ _ (Sqlizer_ToSql first)) by done.
  destruct (Sqlizer_ToSql first) as [[partSql partArgs]|e]; [|done].
  rewrite result_bind_Ok. cbv beta iota.
  destruct (_ && _); [done |].
  apply (mustW_appendToSqlW_fixed (first :: rest)).
Qed.

(** On a snapshot of fragments of the modelled kinds the render on a
    state is the render without one, and the state is not touched. *)
Lemma selectDataW_ToSql_fixed (d : selectData) (w0 : World) :
  selectDataW_ToSql exprs_AppendToSql (fixed_selectData d) w0 =
    (selectData_ToSql exprs_AppendToSql d, w0).
Proof.
  destruct d as [f pre opts cols from joins wh gb hv ob lim off suf].
  unfold selectDataW_ToSql, selectData_ToSql, fixed_selectData.
  cbn [selW_PlaceholderFormat selW_Prefixes selW_Options selW_Columns
       selW_From selW_Joins selW_WhereParts selW_GroupBys selW_HavingParts
       selW_OrderBys selW_Limit selW_Offset selW_Suffixes
       sel_PlaceholderFormat sel_Prefixes sel_Options sel_Columns sel_From
       sel_Joins sel_WhereParts sel_GroupBys sel_HavingParts sel_OrderBys
       sel_Limit sel_Offset sel_Suffixes].
  rewrite (length_fmap fixedW cols).
  destruct (Z.of_nat (List.length cols) =? 0); [done |].
  erewrite MW_bind_fixed by done.
  destruct (if nonempty pre then _ else _) as [[sql args]|e]; [|done].
  rewrite result_bind_Ok. cbv beta iota zeta.
  rewrite (MW_bind_fixed _ _ _ _ (slotW_fixed cols _ _ _ _)).
  destruct (if nonempty cols then _ else _) as [[sql1 args1]|e]; [|done].
  rewrite result_bind_Ok. cbv beta iota.
  rewrite (MW_bind_fixed _ _ _ _ (fromW_fixed from _ _)).
  destruct (match from with Some _ => _ | None => _ end)
    as [[sql2 args2]|e]; [|done].
  rewrite result_bind_Ok. cbv beta iota.
  rewrite (MW_bind_fixed _ _ _ _ (slotW_fixed joins _ _ _ _)).
  destruct (if nonempty joins then _ else _) as [[sql3 args3]|e]; [|done].
  rewrite result_bind_Ok. cbv beta iota.
  rewrite (MW_bind_fixed _ _ _ _ (whereW_fixed wh _ _)).
  destruct (match wh with [] => _ | _ :: _ => _ end)
    as [[sql4 args4]|e]; [|done].
  rewrite result_bind_Ok. cbv beta iota.
  rewrite (MW_bind_fixed _ _ _ _ (slotW_fixed hv _ _ _ _)).
  destruct (if nonempty hv then _ else _) as [[sql5 args5]|e]; [|done].
  rewrite result_bind_Ok. cbv beta iota.
  erewrite MW_bind_fixed by done.
  destruct (if nonempty suf then _ else _) as [[sql6 args6]|e]; [|done].
  by rewrite result_bind_Ok.
Qed.

(** The fragments of a snapshot of the modelled kinds all render the
    same at every call. *)
Lemma fixed_selectData_repeatable (d : selectData) :
  Forall repeatableW (fragmentsW (World := World) (fixed_selectData d)).
Proof.
  unfold fragmentsW, fixed_selectData.
  cbn [selW_Columns selW_From selW_Joins selW_WhereParts selW_HavingParts].
  rewrite !Forall_app, !Forall_fmap.
  repeat split; try (apply Forall_true; intros f; apply fixedW_repeatable).
  destruct (sel_From d) as [from|]; simpl; [|constructor].
  repeat constructor. apply fixedW_repeatable.
Qed.


End StatefulProperties.


